(** * yc_instance: ensure a named Yandex Cloud VM exists

    A shallow embedding of [plugins/modules/yc_instance.py] and the
    properties of one reconciliation pass: validation, existence lookup,
    command construction, bounded polling and result reporting. *)

From Stdlib Require Import ZArith List String Ascii Bool Lia.
From Stdlib Require Import Uint63 PrimFloat DecimalString.
Import ListNotations.
Open Scope string_scope.
Set Warnings "-register-all".

(** ** Python values

    The values [json.loads] can produce.  A dict is kept as an association
    list read with first-match lookup; JSON object keys are always strings. *)

Inductive pyval : Type :=
| PyNone
| PyBool (b : bool)
| PyInt (z : Z)
| PyFloat (f : float)
| PyStr (s : string)
| PyList (l : list pyval)
| PyDict (kvs : list (string * pyval)).

(** Python truthiness: [None], [False], zero, and empty containers are falsy. *)
Definition truthy (v : pyval) : bool :=
  match v with
  | PyNone => false
  | PyBool b => b
  | PyInt z => negb (z =? 0)%Z
  | PyFloat f => negb (PrimFloat.eqb f 0%float)
  | PyStr s => negb (s =? "")
  | PyList l => match l with [] => false | _ :: _ => true end
  | PyDict kvs => match kvs with [] => false | _ :: _ => true end
  end.

(** [a or b] *)
Definition py_or (a b : pyval) : pyval := if truthy a then a else b.

Fixpoint dict_lookup (kvs : list (string * pyval)) (k : string) : option pyval :=
  match kvs with
  | [] => None
  | (k', v) :: rest => if k' =? k then Some v else dict_lookup rest k
  end.

(** [d.get(k)] on a dict: the value, or [None] when the key is missing. *)
Definition dict_get (kvs : list (string * pyval)) (k : string) : pyval :=
  match dict_lookup kvs k with
  | Some v => v
  | None => PyNone
  end.

(** ** Exceptions and results *)

(** The exceptions this program can meet; all are subclasses of
    [Exception].  [RuntimeError msg e] is [raise RuntimeError(msg) from e].
    [RecursionError] is a subclass of [RuntimeError], and so is caught by
    [except RuntimeError]; [ValueError] stands for a [ValueError] that is
    not a [JSONDecodeError]. *)
Inductive exn : Type :=
| CalledProcessError (returncode : Z) (stdout stderr : string)
| JSONDecodeError (msg : string)
| RuntimeError (msg : string) (from : exn)
| RecursionError (msg : string)
| ValueError (msg : string)
| AttributeError
| TypeError
| KeyError
| OtherError (descr : string).

(** What the module hands back to Ansible: [exit_json] with its
    keyword arguments, or [fail_json] with its message.  Both end the
    process through [SystemExit]. *)
Inductive outcome : Type :=
| ExitJson (kwargs : list (string * pyval))
| FailJson (msg : string).

(** The result of running a piece of the program: a value, a raised
    [Exception], the process exit ([SystemExit], which is a [BaseException]
    and so passes through [except Exception]), or an exhausted loop budget
    of the model. *)
Inductive res (A : Type) : Type :=
| Ret (a : A)
| Raise (e : exn)
| Exit (o : outcome)
| OutOfFuel.
Arguments Ret {A} a.
Arguments Raise {A} e.
Arguments Exit {A} o.
Arguments OutOfFuel {A}.

Definition rbind {A B} (c : res A) (k : A -> res B) : res B :=
  match c with
  | Ret a => k a
  | Raise e => Raise e
  | Exit o => Exit o
  | OutOfFuel => OutOfFuel
  end.

(** [try: c except Exception as e: h e] *)
Definition try_except {A} (c : res A) (h : exn -> res A) : res A :=
  match c with
  | Raise e => h e
  | other => other
  end.

Declare Scope res_scope.
Delimit Scope res_scope with res.
Notation "x <- c ;; k" := (rbind c (fun x => k))
  (at level 61, c at next level, right associativity) : res_scope.

(** [v.get(k)]: only dicts have a [get] method. *)
Definition py_get (v : pyval) (k : string) : res pyval :=
  match v with
  | PyDict kvs => Ret (dict_get kvs k)
  | _ => Raise AttributeError
  end.

(** [v[0]] for a truthy [v]. *)
Definition py_index0 (v : pyval) : res pyval :=
  match v with
  | PyList (x :: _) => Ret x
  | PyList [] => Raise (OtherError "IndexError")
  | PyStr (String c _) => Ret (PyStr (String c EmptyString))
  | PyStr EmptyString => Raise (OtherError "IndexError")
  | PyDict _ => Raise KeyError
  | _ => Raise TypeError
  end.

(** ** Public address extraction *)

(** The body of the [try] in [_extract_public_ip]. *)
Definition extract_body (inst : pyval) : res pyval :=
  (nics0 <- py_get inst "network_interfaces" ;;
   let nics := py_or nics0 (PyList []) in
   if negb (truthy nics) then Ret PyNone
   else
     nic <- py_index0 nics ;;
     a <- py_get nic "primary_v4_address" ;;
     let addr := py_or a (PyDict []) in
     n <- py_get addr "one_to_one_nat" ;;
     let nat := py_or n (PyDict []) in
     py_get nat "address")%res.

Definition _extract_public_ip (inst : pyval) : res pyval :=
  try_except (extract_body inst) (fun _ => Ret PyNone).

(** ** The module's parameters

    [module.params] after Ansible's argument checking: the [choices] of
    [platform_id] and [disk_type] are enumerations, [ssh_key] is optional. *)

Inductive platform : Type := standard_v1 | standard_v2 | standard_v3.
Inductive disk_kind : Type := network_hdd | network_ssd | network_ssd_nonreplicated.

Definition platform_str (x : platform) : string :=
  match x with
  | standard_v1 => "standard-v1"
  | standard_v2 => "standard-v2"
  | standard_v3 => "standard-v3"
  end.

Definition disk_kind_str (x : disk_kind) : string :=
  match x with
  | network_hdd => "network-hdd"
  | network_ssd => "network-ssd"
  | network_ssd_nonreplicated => "network-ssd-nonreplicated"
  end.

Record params : Type := {
  p_name : string;
  p_folder_id : string;
  p_zone : string;
  p_subnet_id : string;
  p_image_id : string;
  p_platform_id : platform;
  p_cores : Z;
  p_memory_gb : Z;
  p_disk_gb : Z;
  p_disk_type : disk_kind;
  p_core_fraction : Z;
  p_preemptible : bool;
  p_nat : bool;
  p_ssh_key : option string
}.

(** [str(n)] for a Python int. *)
Definition str_int (n : Z) : string := NilZero.string_of_int (Z.to_int n).

(** ** The world outside the module

    What one pass can observe: whether [shutil.which] finds the tool, the
    Ansible's check mode, the result of the k-th subprocess given its
    argument vector, the k-th reading of [time.time()], and the library
    functions [json.loads], [str.strip], [shlex.quote] and [repr].
    [json.loads] returns a value or raises: a [JSONDecodeError] on text
    that is not JSON, but also a [RecursionError] on nesting that is too
    deep or a [ValueError] on an integer that is too long. *)

Inductive proc_outcome : Type :=
| Completed (returncode : Z) (stdout stderr : string)
| SpawnError (descr : string).

Record World : Type := {
  which_yc : bool;
  check_mode : bool;
  proc : nat -> list string -> proc_outcome;
  clock : nat -> float;
  json_loads : string -> exn + pyval;
  str_strip : string -> string;
  shlex_quote : string -> string;
  exn_repr : exn -> string
}.

(** What the pass has done so far: the argument vectors of the processes
    it ran (oldest first), how often it read the clock, and its sleeps. *)
Record state : Type := {
  calls : list (list string);
  reads : nat;
  sleeps : list Z
}.

Definition state0 : state := {| calls := []; reads := 0; sleeps := [] |}.

Definition M (A : Type) : Type := state -> res A * state.

Definition mret {A} (a : A) : M A := fun st => (Ret a, st).

Definition mbind {A B} (c : M A) (k : A -> M B) : M B :=
  fun st =>
    match c st with
    | (Ret a, st') => k a st'
    | (Raise e, st') => (Raise e, st')
    | (Exit o, st') => (Exit o, st')
    | (OutOfFuel, st') => (OutOfFuel, st')
    end.

Definition lift {A} (c : res A) : M A := fun st => (c, st).

Definition raise {A} (e : exn) : M A := lift (Raise e).

(** [try: c except Exception as e: h e] with effects. *)
Definition try_M {A} (c : M A) (h : exn -> M A) : M A :=
  fun st =>
    match c st with
    | (Raise e, st') => h e st'
    | other => other
    end.

Declare Scope M_scope.
Delimit Scope M_scope with M.
Notation "x <- c ;; k" := (mbind c (fun x => k))
  (at level 61, c at next level, right associativity) : M_scope.
Notation "c ;;; k" := (mbind c (fun _ => k))
  (at level 61, right associativity) : M_scope.

Definition exit_json {A} (kwargs : list (string * pyval)) : M A :=
  lift (Exit (ExitJson kwargs)).

Definition fail_json {A} (msg : string) : M A :=
  lift (Exit (FailJson msg)).

(** [if cond: stmt] where [stmt] is a statement that may not return. *)
Definition when (cond : bool) (stmt : M unit) : M unit :=
  if cond then stmt else mret tt.

(** [a or b] on strings. *)
Definition str_or (a b : string) : string := if a =? "" then b else a.

(** [v == name] for a string [name]. *)
Definition py_eq_str (v : pyval) (name : string) : bool :=
  match v with
  | PyStr s => s =? name
  | _ => false
  end.

Fixpoint chars (s : string) : list pyval :=
  match s with
  | EmptyString => []
  | String c rest => PyStr (String c EmptyString) :: chars rest
  end.

(** What [for x in v] ranges over: the elements of a list, the keys of a
    dict, the characters of a string; anything else is not iterable. *)
Definition py_iter (v : pyval) : res (list pyval) :=
  match v with
  | PyList l => Ret l
  | PyDict kvs => Ret (map (fun kv => PyStr (fst kv)) kvs)
  | PyStr s => Ret (chars s)
  | _ => Raise TypeError
  end.

(** The loop of [_get_instance_by_name]. *)
Fixpoint find_by_name (items : list pyval) (name : string) : res pyval :=
  match items with
  | [] => Ret PyNone
  | inst :: rest =>
      (n <- py_get inst "name" ;;
       if py_eq_str n name then Ret inst else find_by_name rest name)%res
  end.

Definition list_cmd (folder_id : string) : list string :=
  ["yc"; "compute"; "instance"; "list"; "--folder-id"; folder_id; "--format"; "json"].

(** The argument vector assembled in [main], lines 251-275. *)
Definition boot_disk (p : params) : string :=
  "size=" ++ str_int (p_disk_gb p) ++ "GB,type=" ++ disk_kind_str (p_disk_type p)
  ++ ",image-id=" ++ p_image_id p.

Definition nic (p : params) : string :=
  let nic := "subnet-id=" ++ p_subnet_id p in
  if p_nat p then nic ++ ",nat-ip-version=ipv4" else nic.

Definition create_cmd (p : params) : list string :=
  let create_cmd :=
    ["yc"; "compute"; "instance"; "create";
     "--name"; p_name p;
     "--folder-id"; p_folder_id p;
     "--zone"; p_zone p;
     "--create-boot-disk"; boot_disk p;
     "--cores"; str_int (p_cores p);
     "--memory"; str_int (p_memory_gb p);
     "--core-fraction"; str_int (p_core_fraction p);
     "--platform-id"; platform_str (p_platform_id p);
     "--format"; "json"] in
  let create_cmd :=
    (create_cmd
       ++ [if p_preemptible p then "--preemptible" else "--non-preemptible"])%list in
  let create_cmd := (create_cmd ++ ["--network-interface"; nic p])%list in
  match p_ssh_key p with
  | Some k => if k =? "" then create_cmd else (create_cmd ++ ["--ssh-key"; k])%list
  | None => create_cmd
  end.

(** The poll budget as a float; exact for budgets of magnitude below 2^53. *)
Definition float_of_int (n : Z) : float :=
  if (n <? 0)%Z then PrimFloat.opp (PrimFloat.of_uint63 (Uint63.of_Z (- n)))
  else PrimFloat.of_uint63 (Uint63.of_Z n).

Section Program.

Variable W : World.

Definition log_call (cmd : list string) (st : state) : state :=
  {| calls := (calls st ++ [cmd])%list; reads := reads st; sleeps := sleeps st |}.

(** [subprocess.run(cmd, ..., check=True).stdout] *)
Definition subprocess_run (cmd : list string) : M string :=
  fun st =>
    match proc W (List.length (calls st)) cmd with
    | Completed rc out err =>
        if (rc =? 0)%Z then (Ret out, log_call cmd st)
        else (Raise (CalledProcessError rc out err), log_call cmd st)
    | SpawnError d => (Raise (OtherError d), log_call cmd st)
    end.

Definition time_time : M float :=
  fun st =>
    (Ret (clock W (reads st)),
     {| calls := calls st; reads := S (reads st); sleeps := sleeps st |}).

Definition time_sleep (secs : Z) : M unit :=
  fun st =>
    (Ret tt, {| calls := calls st; reads := reads st; sleeps := (sleeps st ++ [secs])%list |}).

(** [json.loads(s)] *)
Definition loads (s : string) : res pyval :=
  match json_loads W s with
  | inr v => Ret v
  | inl e => Raise e
  end.

Definition command_failed (cmd : list string) : string :=
  "Command failed: " ++ String.concat " " (map (shlex_quote W) cmd).

Definition _run (cmd : list string) : M string :=
  try_M (subprocess_run cmd)
    (fun e =>
       match e with
       | CalledProcessError _ out err =>
           let msg := str_or (str_strip W err)
                        (str_or (str_strip W out) (command_failed cmd)) in
           raise (RuntimeError msg e)
       | _ => raise e
       end).

Definition _list_instances (folder_id : string) : M pyval :=
  (out <- _run (list_cmd folder_id) ;;
   try_M (lift (loads (str_or out "[]")))
     (fun e =>
        match e with
        | JSONDecodeError m =>
            raise (RuntimeError ("Failed to parse yc list output: " ++ m) e)
        | _ => raise e
        end))%M.

Definition _get_instance_by_name (name folder_id : string) : M pyval :=
  (l <- _list_instances folder_id ;;
   items <- lift (py_iter l) ;;
   lift (find_by_name items name))%M.

(** [inst and inst.get("status")], as a condition. *)
Definition status_ready (inst : pyval) : res bool :=
  if truthy inst then (s <- py_get inst "status" ;; Ret (truthy s))%res
  else Ret false.

(** The [while] loop of [_poll_status]; [fuel] bounds the number of times
    its condition is evaluated. *)
Fixpoint poll_loop (fuel : nat) (name folder_id : string) (start : float)
    (timeout_s : Z) : M pyval :=
  match fuel with
  | O => lift OutOfFuel
  | S fuel' =>
      (now <- time_time ;;
       if PrimFloat.ltb (PrimFloat.sub now start) (float_of_int timeout_s) then
         inst <- _get_instance_by_name name folder_id ;;
         ready <- lift (status_ready inst) ;;
         if ready then mret inst
         else time_sleep 2 ;;; poll_loop fuel' name folder_id start timeout_s
       else _get_instance_by_name name folder_id)%M
  end.

Definition _poll_status (fuel : nat) (name folder_id : string) (timeout_s : Z)
    : M pyval :=
  (start <- time_time ;;
   poll_loop fuel name folder_id start timeout_s)%M.

(** Lines 227-234 of [main]. *)
Definition validate (p : params) : M unit :=
  (when (p_cores p <? 1)%Z (fail_json "cores must be >= 1") ;;;
   when (p_memory_gb p <? 1)%Z (fail_json "memory_gb must be >= 1") ;;;
   when (p_disk_gb p <? 1)%Z (fail_json "disk_gb must be >= 1") ;;;
   when (negb (existsb (Z.eqb (p_core_fraction p)) [5; 20; 50; 100]%Z))
     (fail_json "core_fraction must be one of 5, 20, 50, 100"))%M.

(** Lines 278-281: the create command's response is decoded, or dropped. *)
Definition decode_created (out : string) : res pyval :=
  try_except (loads (str_or out "{}"))
    (fun e =>
       match e with
       | JSONDecodeError _ => Ret (PyDict [])
       | _ => Raise e
       end).

(** Lines 284-299: poll, then report from the polled record. *)
Definition poll_and_report (fuel : nat) (p : params) : M unit :=
  (inst <- _poll_status fuel (p_name p) (p_folder_id p) 90 ;;
   id <- lift (if truthy inst then py_get inst "id" else Ret PyNone) ;;
   status <- lift (if truthy inst then py_get inst "status" else Ret PyNone) ;;
   public_ip <- lift (if truthy inst then _extract_public_ip inst else Ret PyNone) ;;
   exit_json [("changed", PyBool true);
              ("instance_id", id);
              ("name", PyStr (p_name p));
              ("status", status);
              ("public_ip", public_ip)])%M.

(** Lines 237-299: the body of the [try]. *)
Definition reconcile (fuel : nat) (p : params) : M unit :=
  (inst <- _get_instance_by_name (p_name p) (p_folder_id p) ;;
   when (match inst with PyNone => false | _ => true end)
     (id <- lift (py_get inst "id") ;;
      name <- lift (py_get inst "name") ;;
      status <- lift (py_get inst "status") ;;
      public_ip <- lift (_extract_public_ip inst) ;;
      exit_json [("changed", PyBool false);
                 ("instance_id", id);
                 ("name", name);
                 ("status", status);
                 ("public_ip", public_ip)]) ;;;
   when (check_mode W) (exit_json [("changed", PyBool true)]) ;;;
   out <- _run (create_cmd p) ;;
   created <- lift (decode_created out) ;;
   poll_and_report fuel p)%M.

Definition main (fuel : nat) (p : params) : M unit :=
  (when (negb (which_yc W))
     (fail_json
        "yc CLI not found in PATH. Install it and run `yc init` (or set SA env) first.") ;;;
   validate p ;;;
   try_M (reconcile fuel p)
     (fun e =>
        match e with
        | RuntimeError msg _ => fail_json msg
        | RecursionError msg => fail_json msg
        | _ => fail_json ("Unexpected error: " ++ exn_repr W e)
        end))%M.

End Program.

(** ** Vocabulary of the properties *)

(** A piece of pure code that neither exits the process nor loops. *)
Definition returns_or_raises {A} (c : res A) : Prop :=
  match c with
  | Ret _ | Raise _ => True
  | Exit _ | OutOfFuel => False
  end.

(** The constraints on the sizing parameters. *)
Definition valid (p : params) : Prop :=
  (1 <= p_cores p)%Z /\ (1 <= p_memory_gb p)%Z /\ (1 <= p_disk_gb p)%Z /\
  In (p_core_fraction p) [5; 20; 50; 100]%Z.

(** Options of the create command that are followed by their value. *)
Definition takes_value (w : string) : bool :=
  existsb (String.eqb w)
    ["--name"; "--folder-id"; "--zone"; "--create-boot-disk"; "--cores";
     "--memory"; "--core-fraction"; "--platform-id"; "--format";
     "--network-interface"; "--ssh-key"].

Definition is_preempt_flag (w : string) : bool :=
  (w =? "--preemptible") || (w =? "--non-preemptible").

(** The preemptibility flags an argument vector passes: the words equal to
    one of the two flags that stand in option position, that is, not as the
    value of an option that takes one. *)
Fixpoint preempt_flags_from (value_next : bool) (argv : list string) : list string :=
  match argv with
  | [] => []
  | w :: rest =>
      if value_next then preempt_flags_from false rest
      else if takes_value w then preempt_flags_from true rest
      else if is_preempt_flag w then w :: preempt_flags_from false rest
      else preempt_flags_from false rest
  end.

Definition preempt_flags (argv : list string) : list string :=
  preempt_flags_from false argv.

(** The flag line 265 appends. *)
Definition preempt_flag (p : params) : string :=
  if p_preemptible p then "--preemptible" else "--non-preemptible".

(** A state in which [k] processes have been run. *)
Definition at_call (k : nat) : state :=
  {| calls := repeat [] k; reads := 0; sleeps := [] |}.

(** What the lookup by name yields when it is the [k]-th process of the pass. *)
Definition lookup_at (W : World) (k : nat) (name folder_id : string) : res pyval :=
  fst (_get_instance_by_name W name folder_id (at_call k)).

(** The [k]-th clock reading is within the poll budget, counted from the
    reading the poller took when it started. *)
Definition in_budget (W : World) (k : nat) : bool :=
  PrimFloat.ltb (PrimFloat.sub (clock W k) (clock W 0)) (float_of_int 90).

(** The fields reported from a polled record. *)
Definition field (r : pyval) (k : string) : pyval :=
  match r with
  | PyDict kvs => dict_get kvs k
  | _ => PyNone
  end.

Definition address_of (r : pyval) : pyval :=
  match _extract_public_ip r with
  | Ret a => a
  | _ => PyNone
  end.

Definition created_report (p : params) (r : pyval) : list (string * pyval) :=
  [("changed", PyBool true);
   ("instance_id", field r "id");
   ("name", PyStr (p_name p));
   ("status", field r "status");
   ("public_ip", address_of r)].

(** The state of a pass once the existence lookup and the create command
    have run. *)
Definition after_create (p : params) : state :=
  {| calls := [list_cmd (p_folder_id p); create_cmd p]; reads := 0; sleeps := [] |}.

(** The state in which the poller returns after [n] rounds of looking up
    and sleeping followed by one more lookup. *)
Definition polled (p : params) (n : nat) : state :=
  {| calls := list_cmd (p_folder_id p) :: create_cmd p
              :: repeat (list_cmd (p_folder_id p)) (S n);
     reads := S (S n);
     sleeps := repeat 2%Z n |}.

(** [n] more rounds of the poll loop, each a clock reading, a lookup and a
    sleep. *)
Definition spin (folder_id : string) (n : nat) (st : state) : state :=
  {| calls := calls st ++ repeat (list_cmd folder_id) n;
     reads := reads st + n;
     sleeps := sleeps st ++ repeat 2%Z n |}.

(** [json.loads] on this text returns, or raises a [JSONDecodeError]. *)
Definition loads_quietly (W : World) (s : string) : Prop :=
  (exists v, json_loads W s = inr v) \/
  (exists m, json_loads W s = inl (JSONDecodeError m)).

(** The first [n] rounds of the poll loop all run within the budget and
    none of their lookups shows a status. *)
Definition rounds_without_status (W : World) (p : params) (n : nat) : Prop :=
  forall i, i < n ->
    in_budget W (S i) = true /\
    exists r, lookup_at W (2 + i) (p_name p) (p_folder_id p) = Ret r /\
              status_ready r = Ret false.

(** A record that carries a non-empty status string. *)
Definition shows_status (r : pyval) : Prop :=
  exists kvs s, r = PyDict kvs /\ dict_get kvs "status" = PyStr s /\ s <> "".

(** No record, or a record whose status is missing, null or the empty
    string. *)
Definition shows_no_status (r : pyval) : Prop :=
  r = PyNone \/
  exists kvs, r = PyDict kvs /\
              (dict_get kvs "status" = PyNone \/ dict_get kvs "status" = PyStr "").

(** The first [n] rounds of the poll loop all run within the budget and
    each of their lookups yields no record or a record without a status. *)
Definition rounds_before_status (W : World) (p : params) (n : nat) : Prop :=
  forall i, i < n ->
    in_budget W (S i) = true /\
    exists r, lookup_at W (2 + i) (p_name p) (p_folder_id p) = Ret r /\
              shows_no_status r.

(** A pass that finds nothing, creates, has the response decoded or
    dropped, and polls without success until the budget has elapsed at the
    reading after round [n]; the final lookup shows no status either. *)
Definition timed_out_pass (W : World) (p : params) (n : nat) : Prop :=
  which_yc W = true /\
  check_mode W = false /\
  valid p /\
  lookup_at W 0 (p_name p) (p_folder_id p) = Ret PyNone /\
  (exists out err, proc W 1 (create_cmd p) = Completed 0 out err /\
                   loads_quietly W (str_or out "{}")) /\
  rounds_without_status W p n /\
  in_budget W (S n) = false /\
  (exists r, lookup_at W (2 + n) (p_name p) (p_folder_id p) = Ret r /\
             status_ready r = Ret false).

(** The report with every optional field absent. *)
Definition empty_report (p : params) : list (string * pyval) :=
  [("changed", PyBool true);
   ("instance_id", PyNone);
   ("name", PyStr (p_name p));
   ("status", PyNone);
   ("public_ip", PyNone)].

(** ** Concrete worlds

    Scripted worlds for running the pass on fixed inputs: processes answer
    from a script in call order, the clock from a list of readings, and
    [json.loads] from a table of known outputs. *)

Module Demo.

Definition decode_error : string := "Expecting value: line 1 column 1 (char 0)".

Fixpoint table_loads (table : list (string * pyval)) (s : string) : exn + pyval :=
  match table with
  | [] => inl (JSONDecodeError decode_error)
  | (k, v) :: rest => if k =? s then inr v else table_loads rest s
  end.

Definition world (which check : bool) (script : list proc_outcome)
    (times : list float) (table : list (string * pyval)) : World :=
  {| which_yc := which;
     check_mode := check;
     proc := fun k _ => nth k script (SpawnError "no more processes");
     clock := fun k => nth k times 1000%float;
     json_loads := table_loads table;
     str_strip := fun s => s;
     shlex_quote := fun s => s;
     exn_repr := fun _ => "Exception()" |}.

Definition p : params :=
  {| p_name := "demo";
     p_folder_id := "b1g";
     p_zone := "ru-central1-a";
     p_subnet_id := "e9b";
     p_image_id := "fd8";
     p_platform_id := standard_v2;
     p_cores := 2;
     p_memory_gb := 2;
     p_disk_gb := 10;
     p_disk_type := network_hdd;
     p_core_fraction := 5;
     p_preemptible := true;
     p_nat := true;
     p_ssh_key := None |}.

(** The same request with a fraction outside the allowed set. *)
Definition p33 : params :=
  {| p_name := "demo";
     p_folder_id := "b1g";
     p_zone := "ru-central1-a";
     p_subnet_id := "e9b";
     p_image_id := "fd8";
     p_platform_id := standard_v2;
     p_cores := 2;
     p_memory_gb := 2;
     p_disk_gb := 10;
     p_disk_type := network_hdd;
     p_core_fraction := 33;
     p_preemptible := true;
     p_nat := true;
     p_ssh_key := None |}.

(** A request with no cores, no memory and a bad fraction at once. *)
Definition p_bad : params :=
  {| p_name := "demo";
     p_folder_id := "b1g";
     p_zone := "ru-central1-a";
     p_subnet_id := "e9b";
     p_image_id := "fd8";
     p_platform_id := standard_v2;
     p_cores := 0;
     p_memory_gb := 0;
     p_disk_gb := 10;
     p_disk_type := network_hdd;
     p_core_fraction := 33;
     p_preemptible := false;
     p_nat := false;
     p_ssh_key := Some "user:ssh-rsa AAAA" |}.

(** A listed instance that is running behind the NAT address 1.2.3.4. *)
Definition running : pyval :=
  PyDict [("id", PyStr "fhm1");
          ("name", PyStr "demo");
          ("status", PyStr "RUNNING");
          ("network_interfaces",
           PyList [PyDict [("primary_v4_address",
                            PyDict [("address", PyStr "10.0.0.5");
                                    ("one_to_one_nat",
                                     PyDict [("address", PyStr "1.2.3.4")])])]])].

(** A listed instance that has an identifier but reports no status yet. *)
Definition pending : pyval :=
  PyDict [("id", PyStr "fhm1"); ("name", PyStr "demo")].

Definition table : list (string * pyval) :=
  [("[]", PyList []);
   ("{}", PyDict []);
   ("LIST-RUNNING", PyList [running]);
   ("LIST-PENDING", PyList [pending]);
   ("CREATED", PyDict [("id", PyStr "from-create"); ("status", PyStr "PROVISIONING")])].

(** Nothing listed, create answers, the instance runs at the second poll. *)
Definition created_world : World :=
  world true false
    [Completed 0 "" ""; Completed 0 "CREATED" ""; Completed 0 "[]" "";
     Completed 0 "LIST-RUNNING" ""]
    [0; 1; 3]%float table.

(** Nothing listed, create answers with text that is not JSON, and the
    instance never appears before the budget elapses. *)
Definition absent_world : World :=
  world true false
    [Completed 0 "" ""; Completed 0 "Done." ""; Completed 0 "[]" "";
     Completed 0 "[]" ""; Completed 0 "[]" ""]
    [0; 2; 60; 95]%float table.

(** Nothing listed, create answers, and the instance is listed without a
    status until the budget has elapsed. *)
Definition pending_world : World :=
  world true false
    [Completed 0 "" ""; Completed 0 "CREATED" ""; Completed 0 "LIST-PENDING" "";
     Completed 0 "LIST-PENDING" ""; Completed 0 "LIST-PENDING" ""]
    [0; 2; 60; 95]%float table.

(** The instance is already listed as running. *)
Definition existing_world : World :=
  world true false [Completed 0 "LIST-RUNNING" ""] [] table.

(** The list command answers with text that is not JSON. *)
Definition garbled_world : World :=
  world true false [Completed 0 "Unable to locate credentials" ""] [] table.

(** Nothing listed, create answers, and the tool fails on the lookup made
    once the budget has elapsed. *)
Definition failing_world : World :=
  world true false
    [Completed 0 "" ""; Completed 0 "CREATED" ""; Completed 0 "[]" "";
     Completed 1 "" "ERROR: deadline exceeded"]
    [0; 2; 95]%float table.

End Demo.

(** ** Further vocabulary *)

(** The value an argument vector passes for a valued option: the word that
    follows the option where the option stands in option position. *)
Fixpoint option_value (opt : string) (argv : list string) : option string :=
  match argv with
  | [] => None
  | w :: rest =>
      if takes_value w then
        match rest with
        | [] => None
        | v :: rest' => if w =? opt then Some v else option_value opt rest'
        end
      else option_value opt rest
  end.

(** The message [main] fails with when the body of its [try] raises [e]. *)
Definition failure_message (W : World) (e : exn) : string :=
  match e with
  | RuntimeError msg _ => msg
  | RecursionError msg => msg
  | _ => "Unexpected error: " ++ exn_repr W e
  end.

(** The message [_run] gives a failed command. *)
Definition run_message (W : World) (cmd : list string) (out err : string) : string :=
  str_or (str_strip W err) (str_or (str_strip W out) (command_failed W cmd)).

(** The processes a pass may have run: none, the list command alone, or
    the list command, the create command and then [k] more list commands. *)
Definition pass_trace (p : params) (tr : list (list string)) : Prop :=
  tr = [] \/
  tr = [list_cmd (p_folder_id p)] \/
  exists k, tr = list_cmd (p_folder_id p) :: create_cmd p
                 :: repeat (list_cmd (p_folder_id p)) k.

Definition is_dict (v : pyval) : Prop := exists kvs, v = PyDict kvs.

(** A listed element that is an object with a name other than [name]. *)
Definition other_instance (name : string) (v : pyval) : Prop :=
  exists kvs, v = PyDict kvs /\ dict_get kvs "name" <> PyStr name.

(** Equality of argument vectors is decidable. *)
Definition argv_eq_dec : forall a b : list string, {a = b} + {a <> b} :=
  list_eq_dec string_dec.

(** ** Further concrete worlds *)

Module Cases.

(** The list command fails and says why on stderr. *)
Definition list_fails : World :=
  Demo.world true false [Completed 1 "" "ERROR: folder not found"] [] Demo.table.

(** Nothing is listed and the module runs in check mode. *)
Definition dry_run : World :=
  Demo.world true true [Completed 0 "" ""] [] Demo.table.

(** Nothing is listed and the create command fails, leaving stderr empty. *)
Definition create_fails : World :=
  Demo.world true false
    [Completed 0 "" ""; Completed 1 "quota exceeded" ""] [] Demo.table.

(** Nothing is listed, create answers, and the second poll fails. *)
Definition poll_fails : World :=
  Demo.world true false
    [Completed 0 "" ""; Completed 0 "CREATED" ""; Completed 0 "[]" "";
     Completed 1 "" "ERROR: token expired"]
    [0; 2; 4]%float Demo.table.

(** Two instances are listed under the requested name, after another one. *)
Definition other : pyval :=
  PyDict [("id", PyStr "fhm0"); ("name", PyStr "other"); ("status", PyStr "STOPPED")].

Definition twin : pyval :=
  PyDict [("id", PyStr "fhm2"); ("name", PyStr "demo"); ("status", PyStr "STOPPED")].

Definition crowded : World :=
  Demo.world true false [Completed 0 "LIST" ""] []
    [("LIST", PyList [other; Demo.running; twin; PyInt 7])].

(** The list command prints a JSON object instead of an array. *)
Definition object_listed : World :=
  Demo.world true false [Completed 0 "OBJECT" ""] []
    [("OBJECT", PyDict [("error", PyStr "unauthorized")])].

(** An instance whose first interface has no NAT mapping while its second
    interface has one. *)
Definition plain_nic : pyval :=
  PyDict [("primary_v4_address", PyDict [("address", PyStr "10.0.0.5")])].

Definition nat_nic : pyval :=
  PyDict [("primary_v4_address",
           PyDict [("address", PyStr "10.0.1.5");
                   ("one_to_one_nat", PyDict [("address", PyStr "5.6.7.8")])])].

Definition nat_on_second : list (string * pyval) :=
  [("id", PyStr "fhm3"); ("name", PyStr "demo");
   ("network_interfaces", PyList [plain_nic; nat_nic])].

(** Nothing listed, create answers, the instance is listed without a
    status at the first poll and runs at the second. *)
Definition slow_start : World :=
  Demo.world true false
    [Completed 0 "" ""; Completed 0 "CREATED" ""; Completed 0 "LIST-PENDING" "";
     Completed 0 "LIST-RUNNING" ""]
    [0; 1; 3]%float Demo.table.

(** The text [json.loads] gives up on for being nested too deeply. *)
Definition too_deep : string :=
  "maximum recursion depth exceeded while decoding a JSON array from a unicode string".

(** Nothing listed, and the create command answers with brackets nested
    too deeply for [json.loads]. *)
Definition deep_response : World :=
  {| which_yc := true;
     check_mode := false;
     proc := fun k _ =>
               nth k [Completed 0 "" ""; Completed 0 "[[[[" ""]
                 (SpawnError "no more processes");
     clock := fun _ => 1000%float;
     json_loads := fun s => if s =? "[[[[" then inl (RecursionError too_deep)
                            else Demo.table_loads Demo.table s;
     str_strip := fun s => s;
     shlex_quote := fun s => s;
     exn_repr := fun _ => "Exception()" |}.

(** The list command fails with the very words of a decoding failure. *)
Definition list_fails_like_garbled : World :=
  Demo.world true false
    [Completed 1 ""
       "Failed to parse yc list output: Expecting value: line 1 column 1 (char 0)"]
    [] Demo.table.

Definition fields (v : pyval) : list (string * pyval) :=
  match v with
  | PyDict kvs => kvs
  | _ => []
  end.

End Cases.

(** * dev_write_module: write a text file, idempotently

    A shallow embedding of [run_module] in
    [plugins/modules/dev_write_module.py]. *)

Module DevWrite.

(** What the module asks of the file system, in order: reading the file,
    creating the parent directory, opening the file for writing and writing
    the content. *)
Inductive effect : Type :=
| Read (path : string)
| Makedirs (path : string)
| Write (path content : string).

(** The file system and the harness as one run sees them: check mode,
    [os.path.exists], the text read from a path or the text of the
    exception reading raised, [os.path.dirname], [os.path.isdir], and for
    [os.makedirs] and for opening and writing a file the text of the
    exception raised, if any. *)
Record World : Type := {
  check_mode : bool;
  path_exists : string -> bool;
  read_text : string -> string + string;
  dirname : string -> string;
  isdir : string -> bool;
  makedirs : string -> option string;
  write_text : string -> string -> option string
}.

(** [exit_json] with its keyword arguments, or [fail_json] with its message
    and keyword arguments. *)
Inductive outcome : Type :=
| ExitJson (kwargs : list (string * pyval))
| FailJson (msg : string) (kwargs : list (string * pyval)).

(** [len(s)] for a Python string.  A string is held here as its UTF-8
    bytes, and [len] counts code points: the bytes that are not
    continuation bytes (those of the form 10xxxxxx). *)
Definition is_continuation (c : ascii) : bool :=
  match c with
  | Ascii _ _ _ _ _ _ b6 b7 => b7 && negb b6
  end.

Fixpoint len (s : string) : nat :=
  match s with
  | EmptyString => 0
  | String c rest => (if is_continuation c then 0 else 1) + len rest
  end.

(** The [result] dict of lines 77-81. *)
Definition result (content_changed : bool) (path new_content : string)
    : list (string * pyval) :=
  [("changed", PyBool content_changed);
   ("path", PyStr path);
   ("size", PyInt (Z.of_nat (len new_content)))].

(** [current_content != new_content], where [None] is the absent file. *)
Definition differs (current_content : option string) (new_content : string) : bool :=
  match current_content with
  | Some s => negb (s =? new_content)
  | None => true
  end.

(** The body of the [try] of lines 87-92: the text of the exception it
    raised, if any, and what it asked of the file system. *)
Definition write_file (W : World) (path new_content : string)
    : option string * list effect :=
  let parent := dirname W path in
  if negb (parent =? "") && negb (isdir W parent) then
    match makedirs W parent with
    | Some e => (Some e, [Makedirs parent])
    | None => (write_text W path new_content,
               [Makedirs parent; Write path new_content])
    end
  else (write_text W path new_content, [Write path new_content]).

(** Lines 75-96, given what was read and what has been done so far. *)
Definition finish (W : World) (path new_content : string)
    (current_content : option string) (log : list effect)
    : outcome * list effect :=
  let content_changed := differs current_content new_content in
  let result := result content_changed path new_content in
  if check_mode W then (ExitJson result, log)
  else if content_changed then
    match write_file W path new_content with
    | (Some e, eff) =>
        (FailJson ("Failed to write '" ++ path ++ "': " ++ e) result,
         (log ++ eff)%list)
    | (None, eff) => (ExitJson result, (log ++ eff)%list)
    end
  else (ExitJson result, log).

Definition run_module (W : World) (path new_content : string)
    : outcome * list effect :=
  if path_exists W path then
    match read_text W path with
    | inr s => finish W path new_content (Some s) [Read path]
    | inl e => (FailJson ("Failed to read '" ++ path ++ "': " ++ e) [], [Read path])
    end
  else finish W path new_content None [].

(** An effect that changes the file system. *)
Definition mutates (e : effect) : bool :=
  match e with
  | Read _ => false
  | Makedirs _ | Write _ _ => true
  end.

(** The same world with check mode switched. *)
Definition with_check_mode (b : bool) (W : World) : World :=
  {| check_mode := b;
     path_exists := path_exists W;
     read_text := read_text W;
     dirname := dirname W;
     isdir := isdir W;
     makedirs := makedirs W;
     write_text := write_text W |}.

(** A file system with one file, [/etc/motd], in an existing directory;
    anything else is absent and every operation succeeds, except that
    nothing can be created under [/proc]. *)
Definition sample (check : bool) (motd : string) : World :=
  {| check_mode := check;
     path_exists := fun q => q =? "/etc/motd";
     read_text := fun q => if q =? "/etc/motd" then inr motd
                           else inl "[Errno 2] No such file or directory";
     dirname := fun q => if q =? "/etc/motd" then "/etc"
                         else if q =? "/proc/x/y" then "/proc/x"
                         else if q =? "/srv/app/motd" then "/srv/app"
                         else "";
     isdir := fun q => q =? "/etc";
     makedirs := fun q => if q =? "/proc/x"
                          then Some "[Errno 13] Permission denied: '/proc/x'"
                          else None;
     write_text := fun _ _ => None |}.

(** A file system whose one file, [/etc/shadow], cannot be read. *)
Definition locked : World :=
  {| check_mode := false;
     path_exists := fun q => q =? "/etc/shadow";
     read_text := fun _ => inl "[Errno 13] Permission denied: '/etc/shadow'";
     dirname := fun _ => "/etc";
     isdir := fun q => q =? "/etc";
     makedirs := fun _ => None;
     write_text := fun _ _ => None |}.

End DevWrite.
(** * Properties *)

(** ** Public address extraction *)

Lemma py_get_returns_or_raises v k : returns_or_raises (py_get v k).
Proof. destruct v; exact I. Qed.

Lemma py_index0_returns_or_raises v : returns_or_raises (py_index0 v).
Proof. destruct v as [| | | |[|c s]|[|x l]|]; exact I. Qed.

Lemma rbind_returns_or_raises {A B} (c : res A) (k : A -> res B) :
  returns_or_raises c ->
  (forall a, returns_or_raises (k a)) ->
  returns_or_raises (rbind c k).
Proof. destruct c; simpl; auto. Qed.

Lemma try_except_total {A} (c : res A) (v : A) :
  returns_or_raises c ->
  exists r, try_except c (fun _ => Ret v) = Ret r.
Proof. destruct c; simpl; intros H; try contradiction; eauto. Qed.

Lemma dict_get_lookup kvs k v : dict_lookup kvs k = Some v -> dict_get kvs k = v.
Proof. unfold dict_get; now intros ->. Qed.

Lemma dict_lookup_nonempty kvs k v :
  dict_lookup kvs k = Some v -> truthy (PyDict kvs) = true.
Proof. destruct kvs; [discriminate | reflexivity]. Qed.

Lemma extract_public_ip_returns inst : exists r, _extract_public_ip inst = Ret r.
Proof.
  unfold _extract_public_ip, extract_body. apply try_except_total.
  apply rbind_returns_or_raises; [apply py_get_returns_or_raises|].
  intros nics0. destruct (negb _); [exact I|].
  apply rbind_returns_or_raises; [apply py_index0_returns_or_raises|].
  intros nic0. apply rbind_returns_or_raises; [apply py_get_returns_or_raises|].
  intros a0. apply rbind_returns_or_raises; intros; apply py_get_returns_or_raises.
Qed.

(** C8. [_extract_public_ip] is total: on every value it returns and never
    raises.  It returns the NAT address of the first network interface when
    the record carries one, and [None] when the record has no interfaces,
    when the first interface has no address block or no NAT mapping, and
    whenever walking the nested structure raises. *)
Theorem extract_public_ip_total :
  (forall inst, exists r, _extract_public_ip inst = Ret r) /\
  (forall kvs nic0 rest addr nat a,
      dict_lookup kvs "network_interfaces" = Some (PyList (PyDict nic0 :: rest)) ->
      dict_lookup nic0 "primary_v4_address" = Some (PyDict addr) ->
      dict_lookup addr "one_to_one_nat" = Some (PyDict nat) ->
      dict_lookup nat "address" = Some a ->
      _extract_public_ip (PyDict kvs) = Ret a) /\
  (forall kvs,
      truthy (dict_get kvs "network_interfaces") = false ->
      _extract_public_ip (PyDict kvs) = Ret PyNone) /\
  (forall kvs nic0 rest,
      dict_get kvs "network_interfaces" = PyList (PyDict nic0 :: rest) ->
      truthy (dict_get nic0 "primary_v4_address") = false ->
      _extract_public_ip (PyDict kvs) = Ret PyNone) /\
  (forall kvs nic0 rest addr,
      dict_get kvs "network_interfaces" = PyList (PyDict nic0 :: rest) ->
      dict_get nic0 "primary_v4_address" = PyDict addr ->
      truthy (dict_get addr "one_to_one_nat") = false ->
      _extract_public_ip (PyDict kvs) = Ret PyNone) /\
  (forall inst e,
      extract_body inst = Raise e ->
      _extract_public_ip inst = Ret PyNone).
Proof.
  repeat split.
  - apply extract_public_ip_returns.
  - intros kvs nic0 rest addr nat a Hn Ha Hm Hx.
    unfold _extract_public_ip, extract_body. simpl.
    rewrite (dict_get_lookup _ _ _ Hn). simpl.
    rewrite (dict_get_lookup _ _ _ Ha).
    unfold py_or at 1. rewrite (dict_lookup_nonempty _ _ _ Hm). simpl.
    rewrite (dict_get_lookup _ _ _ Hm).
    unfold py_or. rewrite (dict_lookup_nonempty _ _ _ Hx). simpl.
    now rewrite (dict_get_lookup _ _ _ Hx).
  - intros kvs H. unfold _extract_public_ip, extract_body. simpl.
    unfold py_or. rewrite H. reflexivity.
  - intros kvs nic0 rest Hn Ha. unfold _extract_public_ip, extract_body. simpl.
    rewrite Hn. simpl. unfold py_or. rewrite Ha. reflexivity.
  - intros kvs nic0 rest addr Hn Ha Hm. unfold _extract_public_ip, extract_body. simpl.
    rewrite Hn. simpl. rewrite Ha.
    unfold py_or at 1. destruct addr as [|kv addr'].
    + reflexivity.
    + cbn [truthy]. cbn [py_get rbind]. unfold py_or. rewrite Hm. reflexivity.
  - intros inst e Hb. unfold _extract_public_ip. rewrite Hb. reflexivity.
Qed.

(** C8 on the listed record of a running instance behind a NAT address. *)
Lemma extract_public_ip_total_witness :
  _extract_public_ip Demo.running = Ret (PyStr "1.2.3.4").
Proof.
  unfold Demo.running.
  eapply (proj1 (proj2 extract_public_ip_total)); reflexivity.
Defined.

(** ** Validation *)

Section Validation.

Variable W : World.

Lemma validate_ok (p : params) (st : state) :
  valid p -> validate p st = (Ret tt, st).
Proof.
  intros (Hc & Hm & Hd & Hf). unfold validate, mbind, when.
  apply Z.ltb_ge in Hc, Hm, Hd. rewrite Hc, Hm, Hd. simpl.
  simpl in Hf.
  destruct Hf as [<-|[<-|[<-|[<-|[]]]]]; reflexivity.
Qed.

Lemma validate_rejects (p : params) (st : state) :
  ~ valid p -> exists msg, validate p st = (Exit (FailJson msg), st).
Proof.
  intros Hn. unfold validate, mbind, when.
  destruct (p_cores p <? 1)%Z eqn:Hc; [simpl; eauto|].
  destruct (p_memory_gb p <? 1)%Z eqn:Hm; [simpl; eauto|].
  destruct (p_disk_gb p <? 1)%Z eqn:Hd; [simpl; eauto|].
  destruct (existsb (Z.eqb (p_core_fraction p)) [5; 20; 50; 100]%Z) eqn:Hf;
    [|simpl; unfold fail_json, lift; eauto].
  exfalso. apply Hn. apply Z.ltb_ge in Hc, Hm, Hd.
  apply existsb_exists in Hf. destruct Hf as (x & Hin & Hx).
  apply Z.eqb_eq in Hx. subst x.
  unfold valid. auto.
Qed.

(** C2. The four constraints are checked in the order cores, memory, disk
    size, fraction, and the failure names the first one violated; with
    [cores = 0] the pass fails with the cores message whatever the other
    fields are. *)
Theorem validation_first_violation_wins (p : params) (st : state) :
  ((p_cores p < 1)%Z ->
     validate p st = (Exit (FailJson "cores must be >= 1"), st)) /\
  ((1 <= p_cores p)%Z -> (p_memory_gb p < 1)%Z ->
     validate p st = (Exit (FailJson "memory_gb must be >= 1"), st)) /\
  ((1 <= p_cores p)%Z -> (1 <= p_memory_gb p)%Z -> (p_disk_gb p < 1)%Z ->
     validate p st = (Exit (FailJson "disk_gb must be >= 1"), st)) /\
  ((1 <= p_cores p)%Z -> (1 <= p_memory_gb p)%Z -> (1 <= p_disk_gb p)%Z ->
   ~ In (p_core_fraction p) [5; 20; 50; 100]%Z ->
     validate p st =
     (Exit (FailJson "core_fraction must be one of 5, 20, 50, 100"), st)) /\
  (valid p -> validate p st = (Ret tt, st)) /\
  (which_yc W = true -> p_cores p = 0%Z ->
     forall fuel,
       main W fuel p state0 = (Exit (FailJson "cores must be >= 1"), state0)).
Proof.
  repeat split.
  - intros Hc. apply Z.ltb_lt in Hc. unfold validate, mbind, when.
    now rewrite Hc.
  - intros Hc Hm. apply Z.ltb_ge in Hc. apply Z.ltb_lt in Hm.
    unfold validate, mbind, when. now rewrite Hc, Hm.
  - intros Hc Hm Hd. apply Z.ltb_ge in Hc, Hm. apply Z.ltb_lt in Hd.
    unfold validate, mbind, when. now rewrite Hc, Hm, Hd.
  - intros Hc Hm Hd Hf. apply Z.ltb_ge in Hc, Hm, Hd.
    unfold validate, mbind, when. rewrite Hc, Hm, Hd. simpl.
    destruct (existsb (Z.eqb (p_core_fraction p)) [5; 20; 50; 100]%Z) eqn:E.
    + exfalso. apply Hf. apply existsb_exists in E.
      destruct E as (x & Hin & Hx). apply Z.eqb_eq in Hx. now subst x.
    + simpl in E. now rewrite E.
  - apply validate_ok.
  - intros Hw Hc fuel. unfold main, mbind, when at 1. rewrite Hw. simpl.
    unfold validate, mbind, when. rewrite Hc. reflexivity.
Qed.

(** C3. An invalid request fails the pass with nothing run: the state at
    the failure is the initial one, so no process has been started, neither
    the list nor the create command. *)
Theorem invalid_fails_before_any_process (p : params) (fuel : nat) :
  ~ valid p ->
  exists msg st,
    main W fuel p state0 = (Exit (FailJson msg), st) /\
    calls st = [] /\
    ~ In (list_cmd (p_folder_id p)) (calls st) /\
    ~ In (create_cmd p) (calls st).
Proof.
  intros Hn. unfold main, mbind, when at 1.
  destruct (which_yc W); simpl.
  - destruct (validate_rejects p state0 Hn) as (msg & ->).
    exists msg, state0. simpl. auto.
  - eexists _, state0. simpl. auto.
Qed.

End Validation.

(** C2 on a request with no cores, no memory and a bad fraction: the failure
    names the cores constraint. *)
Lemma validation_first_violation_wins_witness :
  main (Demo.world true false [] [] []) 1 Demo.p_bad state0
  = (Exit (FailJson "cores must be >= 1"), state0).
Proof.
  apply (proj2 (proj2 (proj2 (proj2 (proj2
    (validation_first_violation_wins (Demo.world true false [] [] [])
       Demo.p_bad state0)))))); reflexivity.
Defined.

(** C3 on a request with [core_fraction = 33]. *)
Lemma invalid_fails_before_any_process_witness :
  ~ valid Demo.p33 /\
  exists msg st,
    main (Demo.world true false [] [] []) 1 Demo.p33 state0
    = (Exit (FailJson msg), st) /\
    calls st = [] /\
    ~ In (list_cmd (p_folder_id Demo.p33)) (calls st) /\
    ~ In (create_cmd Demo.p33) (calls st).
Proof.
  assert (H : ~ valid Demo.p33).
  { intros (_ & _ & _ & Hf). simpl in Hf.
    destruct Hf as [Hf|[Hf|[Hf|[Hf|[]]]]]; discriminate Hf. }
  split; [exact H|].
  exact (invalid_fails_before_any_process (Demo.world true false [] [] [])
           Demo.p33 1 H).
Defined.

(** ** The create command *)

Lemma append_same_l (s t : string) : (s ++ t)%string = s -> t = "".
Proof.
  revert t. induction s as [|c s IH]; simpl; intros t H.
  - exact H.
  - injection H as H. now apply IH.
Qed.

Lemma append_empty_r (s : string) : (s ++ "")%string = s.
Proof. induction s as [|c s IH]; simpl; [reflexivity | now rewrite IH]. Qed.

(** C4. The create command passes exactly one preemptibility flag: the
    word after the nine option/value pairs is [--preemptible] when the
    request is preemptible and [--non-preemptible] when it is not, and it
    is the only one of the two flags the command passes. *)
Theorem create_cmd_one_preempt_flag (p : params) :
  nth_error (create_cmd p) 22 = Some (preempt_flag p) /\
  In (preempt_flag p) (create_cmd p) /\
  preempt_flags (create_cmd p) = [preempt_flag p] /\
  (p_preemptible p = true ->
     preempt_flags (create_cmd p) = ["--preemptible"]) /\
  (p_preemptible p = false ->
     preempt_flags (create_cmd p) = ["--non-preemptible"]).
Proof.
  assert (Hflags : preempt_flags (create_cmd p) = [preempt_flag p]).
  { unfold create_cmd, preempt_flag, preempt_flags.
    destruct (p_ssh_key p) as [k|]; [destruct (k =? "")|];
      destruct (p_preemptible p); reflexivity. }
  assert (Hnth : nth_error (create_cmd p) 22 = Some (preempt_flag p)).
  { unfold create_cmd, preempt_flag.
    destruct (p_ssh_key p) as [k|]; [destruct (k =? "")|]; reflexivity. }
  repeat split.
  - exact Hnth.
  - eapply nth_error_In; exact Hnth.
  - exact Hflags.
  - intros H. rewrite Hflags. unfold preempt_flag. now rewrite H.
  - intros H. rewrite Hflags. unfold preempt_flag. now rewrite H.
Qed.

(** Read as a bare list of words, the command spells a preemptibility flag
    once, as long as none of the free-text values does so itself. *)
Lemma str_int_not_flag (z : Z) : is_preempt_flag (str_int z) = false.
Proof.
  unfold str_int, is_preempt_flag.
  destruct (Z.to_int z) as [d|d]; destruct d; reflexivity.
Qed.

Lemma boot_disk_not_flag (p : params) : is_preempt_flag (boot_disk p) = false.
Proof. reflexivity. Qed.

Lemma nic_not_flag (p : params) : is_preempt_flag (nic p) = false.
Proof. unfold nic. destruct (p_nat p); reflexivity. Qed.

Lemma platform_not_flag (x : platform) : is_preempt_flag (platform_str x) = false.
Proof. destruct x; reflexivity. Qed.

Lemma filter_skip (w : string) (l : list string) :
  is_preempt_flag w = false ->
  filter is_preempt_flag (w :: l) = filter is_preempt_flag l.
Proof. intros H. cbn [filter]. now rewrite H. Qed.

Lemma filter_keep (w : string) (l : list string) :
  is_preempt_flag w = true ->
  filter is_preempt_flag (w :: l) = w :: filter is_preempt_flag l.
Proof. intros H. cbn [filter]. now rewrite H. Qed.

Lemma create_cmd_raw_words (p : params) :
  is_preempt_flag (p_name p) = false ->
  is_preempt_flag (p_folder_id p) = false ->
  is_preempt_flag (p_zone p) = false ->
  (forall k, p_ssh_key p = Some k -> is_preempt_flag k = false) ->
  filter is_preempt_flag (create_cmd p) = [preempt_flag p].
Proof.
  intros Hn Hf Hz Hk.
  assert (Hflag : is_preempt_flag (preempt_flag p) = true)
    by (unfold preempt_flag; destruct (p_preemptible p); reflexivity).
  assert (Hbase : forall tail,
    filter is_preempt_flag
      ("yc" :: "compute" :: "instance" :: "create" :: "--name" :: p_name p
       :: "--folder-id" :: p_folder_id p :: "--zone" :: p_zone p
       :: "--create-boot-disk" :: boot_disk p :: "--cores" :: str_int (p_cores p)
       :: "--memory" :: str_int (p_memory_gb p)
       :: "--core-fraction" :: str_int (p_core_fraction p)
       :: "--platform-id" :: platform_str (p_platform_id p) :: "--format" :: "json"
       :: preempt_flag p :: "--network-interface" :: nic p :: tail)
    = preempt_flag p :: filter is_preempt_flag tail).
  { intros tail.
    repeat (rewrite filter_skip
              by first [ reflexivity | assumption | apply str_int_not_flag
                       | apply platform_not_flag ]).
    rewrite (filter_keep _ _ Hflag).
    rewrite (filter_skip "--network-interface") by reflexivity.
    rewrite (filter_skip (nic p)) by apply nic_not_flag.
    reflexivity. }
  unfold create_cmd. fold (preempt_flag p).
  destruct (p_ssh_key p) as [k|]; [destruct (k =? "") eqn:Ek|].
  - exact (Hbase []).
  - etransitivity; [exact (Hbase ["--ssh-key"; k])|].
    rewrite (filter_skip "--ssh-key") by reflexivity.
    rewrite (filter_skip k) by exact (Hk k eq_refl).
    reflexivity.
  - exact (Hbase []).
Qed.

(** C5. The value of [--network-interface] is the subnet reference followed
    by the IPv4 NAT request when [nat] is set, and the subnet reference
    alone when it is not; it carries the NAT request exactly when [nat] is
    set. *)
Theorem create_cmd_nat_iff (p : params) :
  nth_error (create_cmd p) 23 = Some "--network-interface" /\
  nth_error (create_cmd p) 24 = Some (nic p) /\
  (p_nat p = true ->
     nic p = ("subnet-id=" ++ p_subnet_id p ++ ",nat-ip-version=ipv4")%string) /\
  (p_nat p = false -> nic p = ("subnet-id=" ++ p_subnet_id p)%string) /\
  (nic p = ("subnet-id=" ++ p_subnet_id p ++ ",nat-ip-version=ipv4")%string
     <-> p_nat p = true) /\
  (nic p = ("subnet-id=" ++ p_subnet_id p)%string <-> p_nat p = false).
Proof.
  assert (Hassoc : forall s,
             (("subnet-id=" ++ s) ++ ",nat-ip-version=ipv4")%string
             = ("subnet-id=" ++ s ++ ",nat-ip-version=ipv4")%string)
    by reflexivity.
  assert (Hneq : forall s : string, (s ++ ",nat-ip-version=ipv4")%string <> s).
  { intros s H. apply append_same_l in H. discriminate H. }
  repeat split.
  - unfold create_cmd.
    destruct (p_ssh_key p) as [k|]; [destruct (k =? "")|]; reflexivity.
  - unfold create_cmd.
    destruct (p_ssh_key p) as [k|]; [destruct (k =? "")|]; reflexivity.
  - intros H. unfold nic. rewrite H. apply Hassoc.
  - intros H. unfold nic. now rewrite H.
  - unfold nic. destruct (p_nat p); intros H; [reflexivity|].
    exfalso. apply (Hneq ("subnet-id=" ++ p_subnet_id p)%string).
    rewrite Hassoc. now symmetry.
  - intros H. unfold nic. rewrite H. apply Hassoc.
  - unfold nic. destruct (p_nat p); intros H; [|reflexivity].
    exfalso. exact (Hneq _ H).
  - intros H. unfold nic. now rewrite H.
Qed.

(** C4 on the sample request, which is preemptible. *)
Lemma create_cmd_one_preempt_flag_witness :
  preempt_flags (create_cmd Demo.p) = ["--preemptible"].
Proof.
  apply (proj1 (proj2 (proj2 (proj2 (create_cmd_one_preempt_flag Demo.p))))).
  reflexivity.
Defined.

(** C5 on the sample request, which asks for NAT. *)
Lemma create_cmd_nat_iff_witness :
  nic Demo.p = "subnet-id=e9b,nat-ip-version=ipv4".
Proof.
  apply (proj1 (proj2 (proj2 (create_cmd_nat_iff Demo.p)))).
  reflexivity.
Defined.

Lemma create_cmd_is_create (p : params) : nth_error (create_cmd p) 3 = Some "create".
Proof.
  unfold create_cmd.
  destruct (p_ssh_key p) as [k|]; [destruct (k =? "")|]; reflexivity.
Qed.

Lemma create_cmd_not_list (p : params) (folder_id : string) :
  create_cmd p <> list_cmd folder_id.
Proof.
  intros H. pose proof (create_cmd_is_create p) as Hc.
  rewrite H in Hc. discriminate Hc.
Qed.

(** ** The lookup by name *)

Lemma find_by_name_shape items name r :
  find_by_name items name = Ret r ->
  r = PyNone \/ exists kvs, r = PyDict kvs /\ dict_get kvs "name" = PyStr name.
Proof.
  induction items as [|inst rest IH]; simpl.
  - intros [= <-]. now left.
  - destruct inst; simpl; try discriminate.
    destruct (dict_get kvs "name") eqn:E; simpl; try exact IH.
    destruct (s =? name) eqn:Es; [|exact IH].
    intros [= <-]. right. exists kvs. split; [reflexivity|].
    apply String.eqb_eq in Es. now subst s.
Qed.

Section Pass.

Variable W : World.

Lemma get_instance_at (name folder_id : string) (st : state) :
  _get_instance_by_name W name folder_id st
  = (lookup_at W (List.length (calls st)) name folder_id,
     log_call (list_cmd folder_id) st).
Proof.
  unfold lookup_at, _get_instance_by_name, _list_instances, _run,
    subprocess_run, mbind, try_M, lift, raise, at_call.
  cbn [calls]. rewrite repeat_length.
  destruct (proc W (List.length (calls st)) (list_cmd folder_id))
    as [rc out err|d]; [|reflexivity].
  destruct (rc =? 0)%Z; [|reflexivity].
  destruct (loads W (str_or out "[]")) as [l|e| |]; try reflexivity.
  - destruct (py_iter l); reflexivity.
  - destruct e; reflexivity.
Qed.

Lemma lookup_shape (k : nat) (name folder_id : string) (r : pyval) :
  lookup_at W k name folder_id = Ret r ->
  r = PyNone \/ exists kvs, r = PyDict kvs /\ dict_get kvs "name" = PyStr name.
Proof.
  unfold lookup_at, _get_instance_by_name, _list_instances, _run,
    subprocess_run, mbind, try_M, lift, raise, at_call.
  cbn [calls]. rewrite repeat_length.
  destruct (proc W k (list_cmd folder_id)) as [rc out err|d];
    [|discriminate].
  destruct (rc =? 0)%Z; [|discriminate].
  destruct (loads W (str_or out "[]")) as [l|e| |]; try discriminate.
  - destruct (py_iter l) as [items| | |]; try discriminate.
    cbn [fst]. apply find_by_name_shape.
  - destruct e; discriminate.
Qed.

Lemma main_enters (fuel : nat) (p : params) :
  which_yc W = true -> valid p ->
  main W fuel p state0 =
  try_M (reconcile W fuel p)
    (fun e =>
       match e with
       | RuntimeError msg _ => fail_json msg
       | RecursionError msg => fail_json msg
       | _ => fail_json ("Unexpected error: " ++ exn_repr W e)
       end) state0.
Proof.
  intros Hw Hv. unfold main, mbind, when at 1. rewrite Hw. cbn [negb mret].
  now rewrite (validate_ok p state0 Hv).
Qed.

(** C1. When the existence lookup finds an instance, the pass ends with
    [changed = False]; identifier, name and status are the found record's
    fields, the public address is what [_extract_public_ip] derives from
    it, and the only process run is the list command, so the create command
    never runs. *)
Theorem existing_instance_reported (fuel : nat) (p : params) (inst : pyval) :
  which_yc W = true ->
  valid p ->
  lookup_at W 0 (p_name p) (p_folder_id p) = Ret inst ->
  inst <> PyNone ->
  exists kvs ip st,
    inst = PyDict kvs /\
    dict_get kvs "name" = PyStr (p_name p) /\
    _extract_public_ip inst = Ret ip /\
    main W fuel p state0
    = (Exit (ExitJson [("changed", PyBool false);
                       ("instance_id", dict_get kvs "id");
                       ("name", dict_get kvs "name");
                       ("status", dict_get kvs "status");
                       ("public_ip", ip)]), st) /\
    calls st = [list_cmd (p_folder_id p)] /\
    ~ In (create_cmd p) (calls st).
Proof.
  intros Hw Hv Hl Hn.
  destruct (lookup_shape _ _ _ _ Hl) as [->|(kvs & -> & Hname)];
    [contradiction|].
  destruct (extract_public_ip_returns (PyDict kvs)) as [ip Hip].
  exists kvs, ip, (log_call (list_cmd (p_folder_id p)) state0).
  repeat split; try assumption.
  - rewrite (main_enters fuel p Hw Hv).
    unfold try_M, reconcile, mbind at 1.
    rewrite get_instance_at. cbn [calls state0 List.length]. rewrite Hl.
    unfold when at 1, mbind, lift. cbn [py_get]. rewrite Hip. reflexivity.
  - cbn. intros [H|[]]. symmetry in H. exact (create_cmd_not_list _ _ H).
Qed.

(** C9, amended. When the list command of the existence check exits with
    status zero and non-empty output on which [json.loads] raises a
    [JSONDecodeError], [_list_instances] raises a [RuntimeError] from that
    error, the pass fails with "Failed to parse yc list output: " followed
    by the decoder's text, and only the list command has run.  A failing
    tool makes [_list_instances] raise a [RuntimeError] too, from the
    [CalledProcessError] and with the message [_run] builds: the two
    errors are of one class and differ in their cause. *)
Theorem malformed_list_fails_with_parse_error
    (fuel : nat) (p : params) (out err m : string) :
  which_yc W = true ->
  valid p ->
  proc W 0 (list_cmd (p_folder_id p)) = Completed 0 out err ->
  out <> "" ->
  json_loads W out = inl (JSONDecodeError m) ->
  let parse_error :=
    RuntimeError ("Failed to parse yc list output: " ++ m) (JSONDecodeError m) in
  let st := log_call (list_cmd (p_folder_id p)) state0 in
  _list_instances W (p_folder_id p) state0 = (Raise parse_error, st) /\
  main W fuel p state0
  = (Exit (FailJson ("Failed to parse yc list output: " ++ m)), st) /\
  calls st = [list_cmd (p_folder_id p)] /\
  ~ In (create_cmd p) (calls st) /\
  (forall (W' : World) (rc : Z) (out' err' : string),
      proc W' 0 (list_cmd (p_folder_id p)) = Completed rc out' err' ->
      rc <> 0%Z ->
      _list_instances W' (p_folder_id p) state0
      = (Raise (RuntimeError
                  (str_or (str_strip W' err')
                     (str_or (str_strip W' out')
                        (command_failed W' (list_cmd (p_folder_id p)))))
                  (CalledProcessError rc out' err')), st)).
Proof.
  intros Hw Hv Hp Hne Hj parse_error st.
  assert (Hor : str_or out "[]" = out).
  { unfold str_or. apply String.eqb_neq in Hne. now rewrite Hne. }
  assert (Hlist : _list_instances W (p_folder_id p) state0 = (Raise parse_error, st)).
  { unfold _list_instances, _run, subprocess_run, mbind, try_M, lift, raise, loads.
    cbn [calls state0 List.length]. rewrite Hp. cbn [Z.eqb]. rewrite Hor, Hj.
    reflexivity. }
  repeat split.
  - exact Hlist.
  - rewrite (main_enters fuel p Hw Hv).
    unfold try_M, reconcile, _get_instance_by_name, mbind at 1 2.
    rewrite Hlist. reflexivity.
  - cbn. intros [H|[]]. symmetry in H. exact (create_cmd_not_list _ _ H).
  - intros W' rc out' err' Hp' Hrc.
    unfold _list_instances, _run, subprocess_run, mbind, try_M, lift, raise.
    cbn [calls state0 List.length]. rewrite Hp'.
    apply Z.eqb_neq in Hrc. rewrite Hrc. reflexivity.
Qed.

Lemma decode_created_returns (out : string) :
  loads_quietly W (str_or out "{}") ->
  exists v, decode_created W out = Ret v.
Proof.
  unfold decode_created, loads, try_except.
  intros [(v & ->)|(m & ->)]; eauto.
Qed.

Lemma decode_created_raises (out : string) (e : exn) :
  json_loads W (str_or out "{}") = inl e ->
  (forall m, e <> JSONDecodeError m) ->
  decode_created W out = Raise e.
Proof.
  unfold decode_created, loads, try_except. intros -> He.
  destruct e; try reflexivity. now destruct (He msg).
Qed.

Lemma main_creates (fuel : nat) (p : params) (out err : string) :
  which_yc W = true ->
  check_mode W = false ->
  valid p ->
  lookup_at W 0 (p_name p) (p_folder_id p) = Ret PyNone ->
  proc W 1 (create_cmd p) = Completed 0 out err ->
  loads_quietly W (str_or out "{}") ->
  main W fuel p state0 =
  try_M (poll_and_report W fuel p)
    (fun e =>
       match e with
       | RuntimeError msg _ => fail_json msg
       | RecursionError msg => fail_json msg
       | _ => fail_json ("Unexpected error: " ++ exn_repr W e)
       end) (after_create p).
Proof.
  intros Hw Hc Hv Hl Hp Hq.
  rewrite (main_enters fuel p Hw Hv).
  unfold try_M at 1 2. f_equal.
  unfold reconcile, mbind at 1.
  rewrite get_instance_at. cbn [calls state0 List.length]. rewrite Hl.
  unfold when at 1, mbind at 1. cbn [mret].
  unfold mbind at 1. rewrite Hc. unfold when, mret.
  unfold mbind at 1.
  unfold _run, subprocess_run, try_M, log_call.
  cbn [calls reads sleeps state0 List.length app]. rewrite Hp. cbn [Z.eqb].
  unfold mbind at 1, lift.
  destruct (decode_created_returns out Hq) as [v ->].
  reflexivity.
Qed.

Lemma main_decode_raises (fuel : nat) (p : params) (out err : string) (e : exn) :
  which_yc W = true ->
  check_mode W = false ->
  valid p ->
  lookup_at W 0 (p_name p) (p_folder_id p) = Ret PyNone ->
  proc W 1 (create_cmd p) = Completed 0 out err ->
  decode_created W out = Raise e ->
  main W fuel p state0
  = (Exit (FailJson
       match e with
       | RuntimeError msg _ => msg
       | RecursionError msg => msg
       | _ => "Unexpected error: " ++ exn_repr W e
       end), after_create p).
Proof.
  intros Hw Hc Hv Hl Hp Hd.
  rewrite (main_enters fuel p Hw Hv).
  unfold try_M at 1.
  unfold reconcile, mbind at 1.
  rewrite get_instance_at. cbn [calls state0 List.length]. rewrite Hl.
  unfold when at 1, mbind at 1. cbn [mret].
  unfold mbind at 1. rewrite Hc. unfold when, mret.
  unfold mbind at 1.
  unfold _run, subprocess_run, try_M, log_call.
  cbn [calls reads sleeps state0 List.length app]. rewrite Hp. cbn [Z.eqb].
  unfold mbind at 1, lift. rewrite Hd.
  destruct e; reflexivity.
Qed.

(** *** Polling *)

Lemma spin_0 (folder_id : string) (st : state) : spin folder_id 0 st = st.
Proof.
  destruct st as [c r s]. unfold spin. cbn [calls reads sleeps repeat].
  now rewrite !app_nil_r, Nat.add_0_r.
Qed.

Lemma spin_S (folder_id : string) (n : nat) (st : state) :
  spin folder_id n
    {| calls := calls st ++ [list_cmd folder_id];
       reads := S (reads st);
       sleeps := sleeps st ++ [2%Z] |}
  = spin folder_id (S n) st.
Proof.
  unfold spin. cbn [calls reads sleeps repeat].
  rewrite <- !app_assoc. cbn [app]. f_equal. lia.
Qed.

Lemma poll_loop_spin (name folder_id : string) (start : float) :
  forall (n fuel : nat) (st : state),
    (forall i, i < n ->
       PrimFloat.ltb (PrimFloat.sub (clock W (reads st + i)) start)
         (float_of_int 90) = true /\
       exists r, lookup_at W (List.length (calls st) + i) name folder_id = Ret r /\
                 status_ready r = Ret false) ->
    poll_loop W (n + fuel) name folder_id start 90 st
    = poll_loop W fuel name folder_id start 90 (spin folder_id n st).
Proof.
  induction n as [|n IH]; intros fuel st H.
  - now rewrite spin_0.
  - change (S n + fuel) with (S (n + fuel)). cbn [poll_loop].
    destruct (H 0 ltac:(lia)) as (Hb & r & Hr & Hs).
    rewrite Nat.add_0_r in Hb, Hr.
    unfold mbind at 1, time_time. rewrite Hb.
    unfold mbind at 1. rewrite get_instance_at. cbn [calls]. rewrite Hr.
    unfold mbind at 1, lift. rewrite Hs.
    unfold mbind at 1, time_sleep, log_call. cbn [calls reads sleeps].
    rewrite IH.
    + now rewrite spin_S.
    + intros i Hi. cbn [calls reads]. rewrite length_app. cbn [List.length].
      destruct (H (S i) ltac:(lia)) as (Hb' & r' & Hr' & Hs').
      replace (S (reads st) + i) with (reads st + S i) by lia.
      replace (List.length (calls st) + 1 + i)
        with (List.length (calls st) + S i) by lia.
      eauto.
Qed.

(** The round in which the poller returns: within the budget with a record
    that shows a status, or past the budget with whatever the lookup gives. *)
Lemma poll_loop_returns (name folder_id : string) (start : float)
    (fuel : nat) (st : state) (r : pyval) :
  lookup_at W (List.length (calls st)) name folder_id = Ret r ->
  PrimFloat.ltb (PrimFloat.sub (clock W (reads st)) start) (float_of_int 90) = false
  \/ status_ready r = Ret true ->
  poll_loop W (S fuel) name folder_id start 90 st
  = (Ret r, {| calls := calls st ++ [list_cmd folder_id];
               reads := S (reads st);
               sleeps := sleeps st |}).
Proof.
  intros Hr Hend. cbn [poll_loop]. unfold mbind at 1, time_time.
  destruct (PrimFloat.ltb (PrimFloat.sub (clock W (reads st)) start)
              (float_of_int 90)) eqn:Hb.
  - destruct Hend as [Hend|Hs]; [discriminate|].
    unfold mbind at 1. rewrite get_instance_at. cbn [calls]. rewrite Hr.
    unfold mbind, lift. rewrite Hs. reflexivity.
  - rewrite get_instance_at. cbn [calls]. rewrite Hr. reflexivity.
Qed.

Lemma poll_status_returns (fuel n : nat) (p : params) (r : pyval) :
  rounds_without_status W p n ->
  lookup_at W (2 + n) (p_name p) (p_folder_id p) = Ret r ->
  in_budget W (S n) = false \/ status_ready r = Ret true ->
  n < fuel ->
  _poll_status W fuel (p_name p) (p_folder_id p) 90 (after_create p)
  = (Ret r, polled p n).
Proof.
  intros Hrounds Hr Hend Hfuel.
  replace fuel with (n + S (fuel - S n)) by lia.
  unfold _poll_status, mbind, time_time, after_create.
  cbn [calls reads sleeps].
  rewrite poll_loop_spin.
  - rewrite (poll_loop_returns _ _ _ _ _ r).
    + unfold spin, polled. cbn [calls reads sleeps app].
      now rewrite <- repeat_cons.
    + cbn [spin calls]. cbn [app List.length]. rewrite repeat_length. exact Hr.
    + cbn [spin reads]. exact Hend.
  - intros i Hi. cbn [calls reads List.length]. exact (Hrounds i Hi).
Qed.

Lemma poll_loop_shape (name folder_id : string) (start : float) :
  forall (fuel : nat) (st st' : state) (r : pyval),
    poll_loop W fuel name folder_id start 90 st = (Ret r, st') ->
    r = PyNone \/ exists kvs, r = PyDict kvs /\ dict_get kvs "name" = PyStr name.
Proof.
  induction fuel as [|fuel IH]; intros st st' r; cbn [poll_loop].
  - discriminate.
  - unfold mbind at 1, time_time.
    destruct (PrimFloat.ltb _ _).
    + unfold mbind at 1. rewrite get_instance_at.
      destruct (lookup_at W _ name folder_id) as [inst| | |] eqn:Hl;
        try discriminate.
      unfold mbind at 1, lift.
      destruct (status_ready inst) as [[|]| | |]; try discriminate.
      * intros [= <- _]. exact (lookup_shape _ _ _ _ Hl).
      * unfold mbind at 1, time_sleep. apply IH.
    + rewrite get_instance_at. intros [= Hl _].
      exact (lookup_shape _ _ _ _ Hl).
Qed.

Lemma poll_status_shape (fuel : nat) (name folder_id : string)
    (st st' : state) (r : pyval) :
  _poll_status W fuel name folder_id 90 st = (Ret r, st') ->
  r = PyNone \/ exists kvs, r = PyDict kvs /\ dict_get kvs "name" = PyStr name.
Proof.
  unfold _poll_status, mbind, time_time. apply poll_loop_shape.
Qed.

Lemma address_of_returns (r : pyval) : _extract_public_ip r = Ret (address_of r).
Proof.
  unfold address_of. destruct (extract_public_ip_returns r) as [a ->].
  reflexivity.
Qed.

Lemma report_after_poll (fuel : nat) (p : params) (r : pyval) (st st' : state)
    (h : exn -> M unit) :
  _poll_status W fuel (p_name p) (p_folder_id p) 90 st = (Ret r, st') ->
  r = PyNone \/ (exists kvs, r = PyDict kvs /\ dict_get kvs "name" = PyStr (p_name p)) ->
  try_M (poll_and_report W fuel p) h st
  = (Exit (ExitJson (created_report p r)), st').
Proof.
  intros Hpoll Hshape. unfold try_M, poll_and_report, mbind at 1.
  rewrite Hpoll.
  destruct Hshape as [->|(kvs & -> & Hname)].
  - reflexivity.
  - assert (Ht : truthy (PyDict kvs) = true).
    { destruct kvs; [discriminate Hname | reflexivity]. }
    rewrite Ht. unfold mbind, lift. cbn [py_get].
    rewrite (address_of_returns (PyDict kvs)). reflexivity.
Qed.

(** C10, amended. When the create command exits with status zero and
    output on which [json.loads] raises a [JSONDecodeError], the response
    is taken to be the empty record without raising, and the pass goes on
    exactly as the poll-and-report phase run from the state reached after
    the create; whenever the poller then returns a record, the pass ends
    by reporting it with [changed = True].  Empty output is decoded as the
    empty object and gives the same. *)
Theorem malformed_create_output_is_dropped
    (fuel : nat) (p : params) (out err m : string) :
  which_yc W = true ->
  check_mode W = false ->
  valid p ->
  lookup_at W 0 (p_name p) (p_folder_id p) = Ret PyNone ->
  proc W 1 (create_cmd p) = Completed 0 out err ->
  json_loads W out = inl (JSONDecodeError m) ->
  json_loads W "{}" = inr (PyDict []) ->
  decode_created W out = Ret (PyDict []) /\
  main W fuel p state0 =
  try_M (poll_and_report W fuel p)
    (fun e =>
       match e with
       | RuntimeError msg _ => fail_json msg
       | RecursionError msg => fail_json msg
       | _ => fail_json ("Unexpected error: " ++ exn_repr W e)
       end) (after_create p) /\
  (forall r st,
      _poll_status W fuel (p_name p) (p_folder_id p) 90 (after_create p)
      = (Ret r, st) ->
      main W fuel p state0 = (Exit (ExitJson (created_report p r)), st)).
Proof.
  intros Hw Hc Hv Hl Hp Hj He.
  assert (Hd : decode_created W out = Ret (PyDict [])).
  { unfold decode_created, loads, str_or.
    destruct (out =? "") eqn:E; [now rewrite He | now rewrite Hj]. }
  assert (Hq : loads_quietly W (str_or out "{}")).
  { unfold str_or. destruct (out =? "") eqn:E; [left | right]; eauto. }
  repeat split.
  - exact Hd.
  - exact (main_creates fuel p out err Hw Hc Hv Hl Hp Hq).
  - intros r st Hpoll.
    rewrite (main_creates fuel p out err Hw Hc Hv Hl Hp Hq).
    exact (report_after_poll fuel p _ _ _ _ Hpoll
             (poll_status_shape _ _ _ _ _ _ Hpoll)).
Qed.

Lemma status_ready_dict (r : pyval) :
  status_ready r = Ret true ->
  exists kvs, r = PyDict kvs /\ truthy (dict_get kvs "status") = true.
Proof.
  unfold status_ready. destruct (truthy r) eqn:Ht; [|discriminate].
  destruct r; try discriminate. cbn [py_get rbind].
  intros [= H]. eauto.
Qed.

Lemma shows_no_status_not_ready (r : pyval) :
  shows_no_status r -> status_ready r = Ret false.
Proof.
  intros [->|(kvs & -> & Hs)]; [reflexivity|].
  unfold status_ready. destruct (truthy (PyDict kvs)); [|reflexivity].
  cbn [py_get rbind]. destruct Hs as [-> | ->]; reflexivity.
Qed.

Lemma shows_status_ready (r : pyval) :
  shows_status r -> status_ready r = Ret true.
Proof.
  intros (kvs & s & -> & Hs & Hne). unfold status_ready.
  assert (Ht : truthy (PyDict kvs) = true).
  { destruct kvs; [discriminate Hs | reflexivity]. }
  rewrite Ht. cbn [py_get rbind]. rewrite Hs. cbn [truthy].
  apply String.eqb_neq in Hne. now rewrite Hne.
Qed.

Lemma rounds_before_status_without (p : params) (n : nat) :
  rounds_before_status W p n -> rounds_without_status W p n.
Proof.
  intros H i Hi. destruct (H i Hi) as (Hb & r & Hr & Hs).
  split; [exact Hb|]. exists r. split; [exact Hr|].
  now apply shows_no_status_not_ready.
Qed.

(** C7. In a pass that creates the instance and has the response decoded
    or dropped: if the first [n] polling lookups, made within the budget,
    yield no record or a record whose status is missing, null or empty,
    and the next lookup yields a record [r] with a non-empty status string
    [s], then the poller returns [r], passing over the earlier records, and
    the pass reports [changed = True] with the identifier of [r], the
    status [s] and the address derived from [r].  Whatever the create
    command printed, [out], and whatever it was decoded to, has no part in
    the result. *)
Theorem created_fields_come_from_poller
    (fuel n : nat) (p : params) (out err : string)
    (kvs : list (string * pyval)) (s : string) :
  which_yc W = true ->
  check_mode W = false ->
  valid p ->
  lookup_at W 0 (p_name p) (p_folder_id p) = Ret PyNone ->
  proc W 1 (create_cmd p) = Completed 0 out err ->
  loads_quietly W (str_or out "{}") ->
  rounds_before_status W p n ->
  lookup_at W (2 + n) (p_name p) (p_folder_id p) = Ret (PyDict kvs) ->
  dict_get kvs "status" = PyStr s ->
  s <> "" ->
  n < fuel ->
  exists ip,
    _extract_public_ip (PyDict kvs) = Ret ip /\
    _poll_status W fuel (p_name p) (p_folder_id p) 90 (after_create p)
    = (Ret (PyDict kvs), polled p n) /\
    main W fuel p state0
    = (Exit (ExitJson [("changed", PyBool true);
                       ("instance_id", dict_get kvs "id");
                       ("name", PyStr (p_name p));
                       ("status", PyStr s);
                       ("public_ip", ip)]), polled p n).
Proof.
  intros Hw Hc Hv Hl Hp Hq Hrounds Hr Hs Hne Hfuel.
  assert (Hready : status_ready (PyDict kvs) = Ret true)
    by (apply shows_status_ready; exists kvs, s; auto).
  exists (address_of (PyDict kvs)).
  assert (Hpoll := poll_status_returns fuel n p _
                     (rounds_before_status_without p n Hrounds) Hr
                     (or_intror Hready) Hfuel).
  repeat split.
  - apply address_of_returns.
  - exact Hpoll.
  - rewrite (main_creates fuel p out err Hw Hc Hv Hl Hp Hq).
    rewrite (report_after_poll fuel p _ _ _ _ Hpoll (lookup_shape _ _ _ _ Hr)).
    unfold created_report, field. now rewrite Hs.
Qed.

(** C6, amended. When the create succeeds and its response is decoded or
    dropped, [n] rounds pass without a status, the budget has elapsed at
    the next clock reading and the final lookup returns [r], the poller
    returns [r] without raising and the pass ends with [changed = True] and
    no error; identifier, status and address are those of [r], and all
    three are absent when [r] is. *)
Theorem poll_timeout_reports_final_lookup
    (fuel n : nat) (p : params) (out err : string) (r : pyval) :
  which_yc W = true ->
  check_mode W = false ->
  valid p ->
  lookup_at W 0 (p_name p) (p_folder_id p) = Ret PyNone ->
  proc W 1 (create_cmd p) = Completed 0 out err ->
  loads_quietly W (str_or out "{}") ->
  rounds_without_status W p n ->
  in_budget W (S n) = false ->
  lookup_at W (2 + n) (p_name p) (p_folder_id p) = Ret r ->
  n < fuel ->
  _poll_status W fuel (p_name p) (p_folder_id p) 90 (after_create p)
  = (Ret r, polled p n) /\
  main W fuel p state0 = (Exit (ExitJson (created_report p r)), polled p n) /\
  (r = PyNone -> created_report p r = empty_report p) /\
  (forall kvs, r = PyDict kvs ->
     created_report p r
     = [("changed", PyBool true);
        ("instance_id", dict_get kvs "id");
        ("name", PyStr (p_name p));
        ("status", dict_get kvs "status");
        ("public_ip", address_of r)]).
Proof.
  intros Hw Hc Hv Hl Hp Hq Hrounds Hb Hr Hfuel.
  assert (Hpoll := poll_status_returns fuel n p _ Hrounds Hr (or_introl Hb) Hfuel).
  repeat split.
  - exact Hpoll.
  - rewrite (main_creates fuel p out err Hw Hc Hv Hl Hp Hq).
    exact (report_after_poll fuel p _ _ _ _ Hpoll (lookup_shape _ _ _ _ Hr)).
  - intros ->. reflexivity.
  - intros kvs ->. reflexivity.
Qed.

End Pass.

(** ** The properties on concrete passes *)

Lemma demo_valid : valid Demo.p.
Proof. unfold valid. cbn. repeat split; lia. Qed.

Lemma demo_rounds (W : World) (n : nat) :
  (forall i, i < n ->
     in_budget W (S i) = true /\
     lookup_at W (2 + i) "demo" "b1g" = Ret (PyNone) \/
     in_budget W (S i) = true /\
     lookup_at W (2 + i) "demo" "b1g" = Ret Demo.pending) ->
  rounds_without_status W Demo.p n.
Proof.
  intros H i Hi. destruct (H i Hi) as [(Hb & Hl)|(Hb & Hl)];
    (split; [exact Hb|]); eexists; (split; [exact Hl | reflexivity]).
Qed.

(** C1 on a pass that finds the instance running behind 1.2.3.4. *)
Lemma existing_instance_reported_witness :
  exists kvs ip st,
    Demo.running = PyDict kvs /\
    dict_get kvs "name" = PyStr (p_name Demo.p) /\
    _extract_public_ip Demo.running = Ret ip /\
    main Demo.existing_world 1 Demo.p state0
    = (Exit (ExitJson [("changed", PyBool false);
                       ("instance_id", dict_get kvs "id");
                       ("name", dict_get kvs "name");
                       ("status", dict_get kvs "status");
                       ("public_ip", ip)]), st) /\
    calls st = [list_cmd (p_folder_id Demo.p)] /\
    ~ In (create_cmd Demo.p) (calls st).
Proof.
  apply (existing_instance_reported Demo.existing_world 1 Demo.p Demo.running).
  - reflexivity.
  - exact demo_valid.
  - reflexivity.
  - discriminate.
Defined.

(** C9 on a pass whose list command prints text that is not JSON. *)
Lemma malformed_list_fails_with_parse_error_witness :
  main Demo.garbled_world 1 Demo.p state0
  = (Exit (FailJson
       "Failed to parse yc list output: Expecting value: line 1 column 1 (char 0)"),
     log_call (list_cmd "b1g") state0).
Proof.
  apply (malformed_list_fails_with_parse_error Demo.garbled_world 1 Demo.p
           "Unable to locate credentials" "" Demo.decode_error).
  - reflexivity.
  - exact demo_valid.
  - reflexivity.
  - discriminate.
  - reflexivity.
Defined.

(** C9 as stated fails.  A list command that prints nothing prints no
    well-formed data, yet the pass takes it for an empty listing and goes
    on to create.  And the failure of a pass does not tell a decoding
    failure from a failing tool: a tool that fails with the same words on
    stderr ends the pass in the very same way. *)
Lemma parse_error_claim_fails :
  (proc Demo.created_world 0 (list_cmd "b1g") = Completed 0 "" "" /\
   json_loads Demo.created_world "" = inl (JSONDecodeError Demo.decode_error) /\
   fst (main Demo.created_world 2 Demo.p state0)
   = Exit (ExitJson [("changed", PyBool true);
                     ("instance_id", PyStr "fhm1");
                     ("name", PyStr "demo");
                     ("status", PyStr "RUNNING");
                     ("public_ip", PyStr "1.2.3.4")]) /\
   In (create_cmd Demo.p) (calls (snd (main Demo.created_world 2 Demo.p state0)))) /\
  (proc Cases.list_fails_like_garbled 0 (list_cmd "b1g")
   = Completed 1 ""
       "Failed to parse yc list output: Expecting value: line 1 column 1 (char 0)" /\
   main Cases.list_fails_like_garbled 1 Demo.p state0
   = main Demo.garbled_world 1 Demo.p state0) /\
  ~ (forall (W : World) (p : params) (fuel : nat) (out err m : string),
        which_yc W = true ->
        valid p ->
        proc W 0 (list_cmd (p_folder_id p)) = Completed 0 out err ->
        json_loads W out = inl (JSONDecodeError m) ->
        exists msg st,
          main W fuel p state0 = (Exit (FailJson msg), st) /\
          ~ In (create_cmd p) (calls st)).
Proof.
  split; [|split].
  - repeat split; try reflexivity. cbn. auto.
  - split; reflexivity.
  - intros H.
    destruct (H Demo.created_world Demo.p 2 "" "" Demo.decode_error
                eq_refl demo_valid eq_refl eq_refl) as (msg & st & Hm & _).
    vm_compute in Hm. discriminate Hm.
Qed.

(** C10, amended, on a pass whose create command prints text that is not
    JSON and whose instance never shows up. *)
Lemma malformed_create_output_is_dropped_witness :
  decode_created Demo.absent_world "Done." = Ret (PyDict []) /\
  main Demo.absent_world 3 Demo.p state0
  = (Exit (ExitJson (created_report Demo.p PyNone)), polled Demo.p 2).
Proof.
  destruct (malformed_create_output_is_dropped Demo.absent_world 3 Demo.p
              "Done." "" Demo.decode_error) as (Hd & _ & Hm).
  - reflexivity.
  - reflexivity.
  - exact demo_valid.
  - reflexivity.
  - reflexivity.
  - reflexivity.
  - reflexivity.
  - split; [exact Hd|]. apply Hm. reflexivity.
Defined.

(** C10 as stated fails.  On create output nested too deeply,
    [json.loads] raises a [RecursionError], which the handler for
    [JSONDecodeError] does not catch: decoding raises, and the pass fails
    with that error's message right after the create, without polling. *)
Lemma undecodable_create_output_can_fail_the_pass :
  proc Cases.deep_response 1 (create_cmd Demo.p) = Completed 0 "[[[[" "" /\
  json_loads Cases.deep_response "[[[[" = inl (RecursionError Cases.too_deep) /\
  decode_created Cases.deep_response "[[[[" = Raise (RecursionError Cases.too_deep) /\
  main Cases.deep_response 3 Demo.p state0
  = (Exit (FailJson Cases.too_deep), after_create Demo.p) /\
  ~ (forall (W : World) (p : params) (fuel : nat) (out err : string) (e : exn),
        which_yc W = true ->
        check_mode W = false ->
        valid p ->
        lookup_at W 0 (p_name p) (p_folder_id p) = Ret PyNone ->
        proc W 1 (create_cmd p) = Completed 0 out err ->
        json_loads W out = inl e ->
        decode_created W out = Ret (PyDict []) /\
        main W fuel p state0 =
        try_M (poll_and_report W fuel p)
          (fun e =>
             match e with
             | RuntimeError msg _ => fail_json msg
             | RecursionError msg => fail_json msg
             | _ => fail_json ("Unexpected error: " ++ exn_repr W e)
             end) (after_create p)).
Proof.
  repeat split; try reflexivity.
  intros H.
  destruct (H Cases.deep_response Demo.p 3 "[[[[" "" (RecursionError Cases.too_deep)
              eq_refl eq_refl demo_valid eq_refl eq_refl eq_refl) as [Hd _].
  vm_compute in Hd. discriminate Hd.
Qed.

Lemma demo_rounds_before (W : World) (n : nat) :
  (forall i, i < n ->
     in_budget W (S i) = true /\
     lookup_at W (2 + i) "demo" "b1g" = Ret (PyNone) \/
     in_budget W (S i) = true /\
     lookup_at W (2 + i) "demo" "b1g" = Ret Demo.pending) ->
  rounds_before_status W Demo.p n.
Proof.
  intros H i Hi. destruct (H i Hi) as [(Hb & Hl)|(Hb & Hl)];
    (split; [exact Hb|]); eexists; (split; [exact Hl|]).
  - now left.
  - right. eexists. split; [reflexivity|]. now left.
Qed.

(** C7 on a pass whose create command answers with an identifier and a
    status of its own, and whose instance is listed without a status at
    the first poll: the report shows the fields of the record polled
    second. *)
Lemma created_fields_come_from_poller_witness :
  exists ip,
    _extract_public_ip Demo.running = Ret ip /\
    _poll_status Cases.slow_start 2 "demo" "b1g" 90 (after_create Demo.p)
    = (Ret Demo.running, polled Demo.p 1) /\
    main Cases.slow_start 2 Demo.p state0
    = (Exit (ExitJson [("changed", PyBool true);
                       ("instance_id", PyStr "fhm1");
                       ("name", PyStr "demo");
                       ("status", PyStr "RUNNING");
                       ("public_ip", ip)]), polled Demo.p 1).
Proof.
  apply (created_fields_come_from_poller Cases.slow_start 2 1 Demo.p
           "CREATED" "" (Cases.fields Demo.running) "RUNNING").
  - reflexivity.
  - reflexivity.
  - exact demo_valid.
  - reflexivity.
  - reflexivity.
  - left. eexists. reflexivity.
  - apply demo_rounds_before. intros [|i] Hi; [|lia]. right. split; reflexivity.
  - reflexivity.
  - reflexivity.
  - discriminate.
  - lia.
Defined.

(** C6, amended, on a pass whose instance never shows up within the budget. *)
Lemma poll_timeout_reports_final_lookup_witness :
  _poll_status Demo.absent_world 3 "demo" "b1g" 90 (after_create Demo.p)
  = (Ret PyNone, polled Demo.p 2) /\
  main Demo.absent_world 3 Demo.p state0
  = (Exit (ExitJson (empty_report Demo.p)), polled Demo.p 2).
Proof.
  destruct (poll_timeout_reports_final_lookup Demo.absent_world 3 2 Demo.p
              "Done." "" PyNone) as (Hpoll & Hmain & Hnone & _).
  - reflexivity.
  - reflexivity.
  - exact demo_valid.
  - reflexivity.
  - reflexivity.
  - right. eexists. reflexivity.
  - apply demo_rounds. intros [|[|i]] Hi; [| |lia]; left; split; reflexivity.
  - reflexivity.
  - reflexivity.
  - lia.
  - split; [exact Hpoll|]. rewrite Hmain. now rewrite Hnone.
Defined.

(** C6 as stated fails: in a pass that times out while the instance is
    listed with an identifier and no status, the final lookup finds that
    record and the pass reports its identifier. *)
Lemma timeout_report_can_carry_identifier :
  timed_out_pass Demo.pending_world Demo.p 2 /\
  main Demo.pending_world 3 Demo.p state0
  = (Exit (ExitJson [("changed", PyBool true);
                     ("instance_id", PyStr "fhm1");
                     ("name", PyStr "demo");
                     ("status", PyNone);
                     ("public_ip", PyNone)]), polled Demo.p 2) /\
  ~ (forall (W : World) (p : params) (n fuel : nat),
        timed_out_pass W p n ->
        n < fuel ->
        exists st, main W fuel p state0 = (Exit (ExitJson (empty_report p)), st)).
Proof.
  assert (Hpass : timed_out_pass Demo.pending_world Demo.p 2).
  { refine (conj _ (conj _ (conj demo_valid (conj _ (conj _ (conj _ (conj _ _)))))));
      try reflexivity.
    - exists "CREATED", "". split; [reflexivity|]. left. eexists. reflexivity.
    - apply demo_rounds. intros [|[|i]] Hi; [| |lia]; right; split; reflexivity.
    - exists Demo.pending. split; reflexivity. }
  split; [exact Hpass|]. split; [reflexivity|].
  intros H. destruct (H Demo.pending_world Demo.p 2 3 Hpass) as [st Hst]; [lia|].
  vm_compute in Hst. discriminate Hst.
Qed.

(** The lookup made after the budget has elapsed is an ordinary lookup: a
    failing list command there fails the pass with the tool's message. *)
Example final_lookup_failure_fails_the_pass :
  fst (main Demo.failing_world 3 Demo.p state0)
  = Exit (FailJson "ERROR: deadline exceeded").
Proof. reflexivity. Qed.

(** * Further properties of the module *)

(** ** Running commands *)

Section Commands.

Variable W : World.

Lemma run_ok (cmd : list string) (st : state) (out err : string) :
  proc W (List.length (calls st)) cmd = Completed 0 out err ->
  _run W cmd st = (Ret out, log_call cmd st).
Proof.
  intros H. unfold _run, try_M, subprocess_run. now rewrite H.
Qed.

Lemma run_failed (cmd : list string) (st : state) (rc : Z) (out err : string) :
  proc W (List.length (calls st)) cmd = Completed rc out err ->
  rc <> 0%Z ->
  _run W cmd st
  = (Raise (RuntimeError (run_message W cmd out err) (CalledProcessError rc out err)),
     log_call cmd st).
Proof.
  intros H Hrc. unfold _run, try_M, subprocess_run. rewrite H.
  apply Z.eqb_neq in Hrc. now rewrite Hrc.
Qed.

Lemma run_effect (cmd : list string) (st : state) :
  snd (_run W cmd st) = log_call cmd st /\
  returns_or_raises (fst (_run W cmd st)).
Proof.
  unfold _run, try_M, subprocess_run.
  destruct (proc W (List.length (calls st)) cmd) as [rc out err|d].
  - destruct (rc =? 0)%Z; split; reflexivity || exact I.
  - split; reflexivity || exact I.
Qed.

(** X1. A command that exits non-zero makes [_run] raise a [RuntimeError]
    from the [CalledProcessError]; its message is the stripped stderr if
    that is not empty, otherwise the stripped stdout if that is not empty,
    otherwise the text "Command failed: " followed by the quoted words of
    the command joined by spaces. *)
Theorem run_failure_message
    (cmd : list string) (st : state) (rc : Z) (out err : string) :
  proc W (List.length (calls st)) cmd = Completed rc out err ->
  rc <> 0%Z ->
  exists msg,
    _run W cmd st
    = (Raise (RuntimeError msg (CalledProcessError rc out err)), log_call cmd st) /\
    (str_strip W err <> "" -> msg = str_strip W err) /\
    (str_strip W err = "" -> str_strip W out <> "" -> msg = str_strip W out) /\
    (str_strip W err = "" -> str_strip W out = "" ->
       msg = "Command failed: " ++ String.concat " " (map (shlex_quote W) cmd)).
Proof.
  intros H Hrc. exists (run_message W cmd out err).
  split; [exact (run_failed cmd st rc out err H Hrc)|].
  unfold run_message, str_or, command_failed.
  repeat split.
  - intros He. apply String.eqb_neq in He. now rewrite He.
  - intros He Ho. rewrite He. cbn [String.eqb].
    apply String.eqb_neq in Ho. now rewrite Ho.
  - intros He Ho. rewrite He, Ho. reflexivity.
Qed.

(** ** Looking an instance up *)

Lemma py_eq_str_true (v : pyval) (name : string) :
  py_eq_str v name = true <-> v = PyStr name.
Proof.
  destruct v; cbn; try (split; [discriminate | intros [=]]).
  rewrite String.eqb_eq. split; [now intros -> | now intros [= ->]].
Qed.

Lemma py_eq_str_false (v : pyval) (name : string) :
  py_eq_str v name = false <-> v <> PyStr name.
Proof.
  rewrite <- py_eq_str_true. destruct (py_eq_str v name); split; congruence.
Qed.

Lemma find_by_name_skips (name : string) (pre rest : list pyval) :
  Forall (other_instance name) pre ->
  find_by_name (pre ++ rest) name = find_by_name rest name.
Proof.
  induction 1 as [|x pre (kvs & -> & Hx) _ IH]; [reflexivity|].
  cbn [app find_by_name py_get rbind].
  apply py_eq_str_false in Hx. now rewrite Hx.
Qed.

Lemma find_by_name_none (name : string) (items : list pyval) :
  Forall is_dict items ->
  (find_by_name items name = Ret PyNone <-> Forall (other_instance name) items).
Proof.
  induction 1 as [|x items (kvs & ->) _ IH].
  - split; [constructor | reflexivity].
  - cbn [find_by_name py_get rbind].
    destruct (py_eq_str (dict_get kvs "name") name) eqn:E.
    + split; [discriminate|].
      intros Hall. inversion Hall as [|? ? Hx _]; subst.
      destruct Hx as (kvs' & Heq & Hn). injection Heq as <-.
      apply py_eq_str_true in E. contradiction.
    + rewrite IH. split.
      * intros Hall. constructor; [|exact Hall].
        exists kvs. split; [reflexivity|]. now apply py_eq_str_false.
      * intros Hall. now inversion Hall.
Qed.

(** What the lookup does with decoded list output. *)
Lemma get_instance_decoded
    (name folder_id : string) (st : state) (out err : string) (v : pyval) :
  proc W (List.length (calls st)) (list_cmd folder_id) = Completed 0 out err ->
  json_loads W (str_or out "[]") = inr v ->
  _get_instance_by_name W name folder_id st
  = ((items <- py_iter v ;; find_by_name items name)%res,
     log_call (list_cmd folder_id) st).
Proof.
  intros Hp Hj. unfold _get_instance_by_name, _list_instances, mbind at 1 2.
  rewrite (run_ok _ _ _ _ Hp). unfold try_M, lift, loads. rewrite Hj.
  unfold mbind. destruct (py_iter v); reflexivity.
Qed.

(** X2. When the list command prints nothing, the text decoded is the
    empty array; the lookup then finds no instance and raises nothing. *)
Theorem empty_list_output_finds_nothing
    (name folder_id : string) (st : state) (err : string) :
  proc W (List.length (calls st)) (list_cmd folder_id) = Completed 0 "" err ->
  json_loads W "[]" = inr (PyList []) ->
  _get_instance_by_name W name folder_id st
  = (Ret PyNone, log_call (list_cmd folder_id) st).
Proof.
  intros Hp Hj.
  now rewrite (get_instance_decoded name folder_id st "" err (PyList []) Hp Hj).
Qed.

(** X3. The lookup returns the first listed object whose name equals the
    requested one: objects with other names before it are passed over, and
    whatever follows it in the listing, even a second object of the same
    name or a value that is no object, is never inspected. *)
Theorem lookup_first_match_wins
    (name folder_id : string) (st : state) (out err : string)
    (pre post : list pyval) (kvs : list (string * pyval)) :
  proc W (List.length (calls st)) (list_cmd folder_id) = Completed 0 out err ->
  json_loads W (str_or out "[]") = inr (PyList (pre ++ PyDict kvs :: post)) ->
  Forall (other_instance name) pre ->
  dict_get kvs "name" = PyStr name ->
  _get_instance_by_name W name folder_id st
  = (Ret (PyDict kvs), log_call (list_cmd folder_id) st).
Proof.
  intros Hp Hj Hpre Hname.
  rewrite (get_instance_decoded name folder_id st out err _ Hp Hj).
  cbn [py_iter rbind]. rewrite (find_by_name_skips name pre _ Hpre).
  cbn [find_by_name py_get rbind].
  apply py_eq_str_true in Hname. now rewrite Hname.
Qed.

(** X4. On a listing made of objects only, the lookup answers [None]
    exactly when no listed object carries the requested name. *)
Theorem lookup_none_iff_no_match
    (name folder_id : string) (st : state) (out err : string)
    (items : list pyval) :
  proc W (List.length (calls st)) (list_cmd folder_id) = Completed 0 out err ->
  json_loads W (str_or out "[]") = inr (PyList items) ->
  Forall is_dict items ->
  (_get_instance_by_name W name folder_id st
   = (Ret PyNone, log_call (list_cmd folder_id) st)
   <-> Forall (other_instance name) items).
Proof.
  intros Hp Hj Hd.
  rewrite (get_instance_decoded name folder_id st out err _ Hp Hj).
  cbn [py_iter rbind]. rewrite <- (find_by_name_none name items Hd).
  split; [now intros [= ->] | now intros ->].
Qed.

(** X5. Decoded list output that is not an array of objects: an object
    with at least one key, a non-empty string, or an array whose first
    element is no object makes the lookup raise [AttributeError]; a number,
    a boolean or [null] makes it raise [TypeError]; an empty object or an
    empty string is taken for an empty listing. *)
Theorem lookup_on_unexpected_shapes
    (name folder_id : string) (st : state) (out err : string) (v : pyval) :
  proc W (List.length (calls st)) (list_cmd folder_id) = Completed 0 out err ->
  json_loads W (str_or out "[]") = inr v ->
  let result := fst (_get_instance_by_name W name folder_id st) in
  (forall kv kvs, v = PyDict (kv :: kvs) -> result = Raise AttributeError) /\
  (forall c s, v = PyStr (String c s) -> result = Raise AttributeError) /\
  (forall x rest, v = PyList (x :: rest) -> ~ is_dict x ->
     result = Raise AttributeError) /\
  (v = PyNone \/ (exists b, v = PyBool b) \/ (exists z, v = PyInt z)
   \/ (exists f, v = PyFloat f) -> result = Raise TypeError) /\
  (v = PyDict [] \/ v = PyStr "" -> result = Ret PyNone).
Proof.
  intros Hp Hj result. subst result.
  rewrite (get_instance_decoded name folder_id st out err _ Hp Hj).
  cbn [fst]. repeat split.
  - intros kv kvs ->. reflexivity.
  - intros c s ->. reflexivity.
  - intros x rest -> Hx. cbn [py_iter rbind find_by_name].
    destruct x; try reflexivity. exfalso. apply Hx. now exists kvs.
  - intros [->|[(b & ->)|[(z & ->)|(f & ->)]]]; reflexivity.
  - intros [->| ->]; reflexivity.
Qed.

End Commands.

(** ** The course of a pass *)

Section Course.

Variable W : World.

Lemma lookup_at_returns_or_raises (k : nat) (name folder_id : string) :
  returns_or_raises (lookup_at W k name folder_id).
Proof.
  unfold lookup_at, _get_instance_by_name, _list_instances, _run,
    subprocess_run, mbind, try_M, lift, raise, at_call.
  cbn [calls]. rewrite repeat_length.
  destruct (proc W k (list_cmd folder_id)) as [rc out err|d]; [|exact I].
  destruct (rc =? 0)%Z; [|exact I].
  destruct (loads W (str_or out "[]")) as [l|e| |] eqn:El.
  - destruct (py_iter l) as [items| | |] eqn:Ei; cbn [fst]; try exact I.
    + clear. induction items as [|x items IH]; [exact I|].
      cbn [find_by_name]. destruct x; cbn [py_get rbind]; try exact I.
      destruct (py_eq_str _ _); [exact I | exact IH].
    + destruct l; discriminate Ei.
    + destruct l; discriminate Ei.
  - destruct e; exact I.
  - unfold loads in El. destruct (json_loads W _); discriminate El.
  - unfold loads in El. destruct (json_loads W _); discriminate El.
Qed.

Lemma status_ready_returns_or_raises (inst : pyval) :
  returns_or_raises (status_ready inst).
Proof.
  unfold status_ready. destruct (truthy inst); [|exact I].
  destruct inst; exact I.
Qed.

(** One evaluation of the loop condition of [_poll_status]. *)
Lemma poll_loop_step (name folder_id : string) (start : float)
    (fuel : nat) (st : state) :
  let st1 := {| calls := (calls st ++ [list_cmd folder_id])%list;
                reads := S (reads st);
                sleeps := sleeps st |} in
  poll_loop W (S fuel) name folder_id start 90 st =
  if PrimFloat.ltb (PrimFloat.sub (clock W (reads st)) start) (float_of_int 90)
  then
    match lookup_at W (List.length (calls st)) name folder_id with
    | Ret inst =>
        match status_ready inst with
        | Ret true => (Ret inst, st1)
        | Ret false =>
            poll_loop W fuel name folder_id start 90
              {| calls := (calls st ++ [list_cmd folder_id])%list;
                 reads := S (reads st);
                 sleeps := (sleeps st ++ [2%Z])%list |}
        | Raise e => (Raise e, st1)
        | Exit o => (Exit o, st1)
        | OutOfFuel => (OutOfFuel, st1)
        end
    | Raise e => (Raise e, st1)
    | Exit o => (Exit o, st1)
    | OutOfFuel => (OutOfFuel, st1)
    end
  else (lookup_at W (List.length (calls st)) name folder_id, st1).
Proof.
  intros st1. subst st1. cbn [poll_loop]. unfold mbind at 1, time_time.
  destruct (PrimFloat.ltb _ _).
  - unfold mbind at 1. rewrite get_instance_at. cbn [calls].
    destruct (lookup_at W _ name folder_id) as [inst|e|o|]; try reflexivity.
    unfold mbind at 1, lift.
    destruct (status_ready inst) as [[|]|e|o|]; reflexivity.
  - rewrite get_instance_at. reflexivity.
Qed.

(** What the poll loop leaves behind: [k] lookups and [j] sleeps of two
    seconds; it stops for lack of fuel only after [fuel] full rounds, and a
    clock reading past the budget bounds the rounds. *)
Lemma poll_loop_trace (name folder_id : string) (start : float) :
  forall (fuel : nat) (st : state),
    let R := poll_loop W fuel name folder_id start 90 st in
    exists k j,
      calls (snd R) = (calls st ++ repeat (list_cmd folder_id) k)%list /\
      sleeps (snd R) = (sleeps st ++ repeat 2%Z j)%list /\
      ((fst R = OutOfFuel /\ k = fuel /\ j = fuel) \/
       (returns_or_raises (fst R) /\ k = S j /\ k <= fuel)) /\
      (forall n,
          PrimFloat.ltb (PrimFloat.sub (clock W (reads st + n)) start)
            (float_of_int 90) = false ->
          j <= n /\ (n < fuel -> returns_or_raises (fst R))).
Proof.
  induction fuel as [|fuel IH]; intros st R; subst R.
  - exists 0, 0. cbn [poll_loop lift fst snd repeat]. rewrite !app_nil_r.
    split; [reflexivity|]. split; [reflexivity|]. split; [left; auto|].
    intros n _. split; [lia|]. intros Hn. lia.
  - assert (Hstop : forall (r : res pyval),
               returns_or_raises r ->
               let R := (r, {| calls := (calls st ++ [list_cmd folder_id])%list;
                               reads := S (reads st);
                               sleeps := sleeps st |}) in
               exists k j,
                 calls (snd R) = (calls st ++ repeat (list_cmd folder_id) k)%list /\
                 sleeps (snd R) = (sleeps st ++ repeat 2%Z j)%list /\
                 ((fst R = OutOfFuel /\ k = S fuel /\ j = S fuel) \/
                  (returns_or_raises (fst R) /\ k = S j /\ k <= S fuel)) /\
                 (forall n,
                     PrimFloat.ltb (PrimFloat.sub (clock W (reads st + n)) start)
                       (float_of_int 90) = false ->
                     j <= n /\ (n < S fuel -> returns_or_raises (fst R)))).
    { intros r Hr R. exists 1, 0. subst R.
      cbn [fst snd calls sleeps repeat]. rewrite app_nil_r.
      split; [reflexivity|]. split; [reflexivity|].
      split; [right; repeat split; [exact Hr | lia]|].
      intros n _. split; [lia | intros _; exact Hr]. }
    rewrite poll_loop_step.
    destruct (PrimFloat.ltb (PrimFloat.sub (clock W (reads st)) start)
                (float_of_int 90)) eqn:Hb.
    + pose proof (lookup_at_returns_or_raises (List.length (calls st))
                    name folder_id) as Hl.
      destruct (lookup_at W (List.length (calls st)) name folder_id)
        as [inst|e| |]; try contradiction.
      * pose proof (status_ready_returns_or_raises inst) as Hs.
        destruct (status_ready inst) as [[|]|e| |]; try contradiction.
        -- exact (Hstop (Ret inst) I).
        -- specialize (IH {| calls := (calls st ++ [list_cmd folder_id])%list;
                             reads := S (reads st);
                             sleeps := (sleeps st ++ [2%Z])%list |}).
           cbn [calls reads sleeps] in IH.
           destruct IH as (k & j & Hc & Hsl & Hend & Hbound).
           exists (S k), (S j). rewrite Hc, Hsl.
           rewrite <- !app_assoc. cbn [app repeat].
           split; [reflexivity|]. split; [reflexivity|]. split.
           ++ destruct Hend as [(Ho & -> & ->)|(Hr & -> & Hk)];
                [left; auto | right; repeat split; auto; lia].
           ++ intros n Hout. destruct n as [|n].
              ** rewrite Nat.add_0_r in Hout. congruence.
              ** replace (reads st + S n) with (S (reads st) + n) in Hout by lia.
                 destruct (Hbound n Hout) as [Hj Hr].
                 split; [lia|]. intros Hn. apply Hr. lia.
        -- exact (Hstop (Raise e) I).
      * exact (Hstop (Raise e) I).
    + apply Hstop. apply lookup_at_returns_or_raises.
Qed.

Lemma valid_or_not (p : params) : valid p \/ ~ valid p.
Proof.
  unfold valid.
  destruct (Z_le_dec 1 (p_cores p)); [|right; tauto].
  destruct (Z_le_dec 1 (p_memory_gb p)); [|right; tauto].
  destruct (Z_le_dec 1 (p_disk_gb p)); [|right; tauto].
  destruct (in_dec Z.eq_dec (p_core_fraction p) [5; 20; 50; 100]%Z);
    [left|right]; tauto.
Qed.

Lemma main_lookup_raises (fuel : nat) (p : params) (e : exn) :
  which_yc W = true ->
  valid p ->
  lookup_at W 0 (p_name p) (p_folder_id p) = Raise e ->
  main W fuel p state0
  = (Exit (FailJson (failure_message W e)), log_call (list_cmd (p_folder_id p)) state0).
Proof.
  intros Hw Hv Hl. rewrite (main_enters W fuel p Hw Hv).
  unfold try_M, reconcile, mbind at 1.
  rewrite get_instance_at. cbn [calls state0 List.length]. rewrite Hl.
  destruct e; reflexivity.
Qed.

Lemma main_found (fuel : nat) (p : params) (kvs : list (string * pyval)) :
  which_yc W = true ->
  valid p ->
  lookup_at W 0 (p_name p) (p_folder_id p) = Ret (PyDict kvs) ->
  exists o,
    main W fuel p state0 = (Exit o, log_call (list_cmd (p_folder_id p)) state0).
Proof.
  intros Hw Hv Hl. rewrite (main_enters W fuel p Hw Hv).
  unfold try_M, reconcile, mbind at 1.
  rewrite get_instance_at. cbn [calls state0 List.length]. rewrite Hl.
  unfold when at 1, mbind, lift. cbn [py_get].
  rewrite (address_of_returns (PyDict kvs)). eexists. reflexivity.
Qed.

Lemma main_check_mode (fuel : nat) (p : params) :
  which_yc W = true ->
  valid p ->
  check_mode W = true ->
  lookup_at W 0 (p_name p) (p_folder_id p) = Ret PyNone ->
  main W fuel p state0
  = (Exit (ExitJson [("changed", PyBool true)]),
     log_call (list_cmd (p_folder_id p)) state0).
Proof.
  intros Hw Hv Hc Hl. rewrite (main_enters W fuel p Hw Hv).
  unfold try_M, reconcile, mbind at 1.
  rewrite get_instance_at. cbn [calls state0 List.length]. rewrite Hl.
  unfold when at 1, mbind at 1. cbn [mret].
  unfold mbind at 1. rewrite Hc. reflexivity.
Qed.

Lemma main_create_raises (fuel : nat) (p : params) (e : exn) :
  which_yc W = true ->
  valid p ->
  check_mode W = false ->
  lookup_at W 0 (p_name p) (p_folder_id p) = Ret PyNone ->
  fst (_run W (create_cmd p) (log_call (list_cmd (p_folder_id p)) state0)) = Raise e ->
  main W fuel p state0 = (Exit (FailJson (failure_message W e)), after_create p).
Proof.
  intros Hw Hv Hc Hl Hr. rewrite (main_enters W fuel p Hw Hv).
  unfold try_M, reconcile, mbind at 1.
  rewrite get_instance_at. cbn [calls state0 List.length]. rewrite Hl.
  unfold when at 1, mbind at 1. cbn [mret].
  unfold mbind at 1. rewrite Hc. unfold when, mret.
  unfold mbind at 1.
  destruct (run_effect W (create_cmd p) (log_call (list_cmd (p_folder_id p)) state0))
    as [Hst _].
  destruct (_run W (create_cmd p) (log_call (list_cmd (p_folder_id p)) state0))
    as [r st]. cbn [fst snd] in Hr, Hst. subst r st.
  destruct e; reflexivity.
Qed.

(** The ways a pass can go, by the state it ends in. *)
Lemma main_cases (fuel : nat) (p : params) :
  (exists o, main W fuel p state0 = (Exit o, state0)) \/
  (exists o, main W fuel p state0
             = (Exit o, log_call (list_cmd (p_folder_id p)) state0)) \/
  (check_mode W = false /\
   ((exists o, main W fuel p state0 = (Exit o, after_create p)) \/
    main W fuel p state0
    = try_M (poll_and_report W fuel p)
        (fun e =>
           match e with
           | RuntimeError msg _ => fail_json msg
           | RecursionError msg => fail_json msg
           | _ => fail_json ("Unexpected error: " ++ exn_repr W e)
           end) (after_create p))).
Proof.
  destruct (which_yc W) eqn:Hw.
  2:{ left. unfold main, mbind, when at 1. rewrite Hw. cbn. eauto. }
  destruct (valid_or_not p) as [Hv|Hv].
  2:{ left. unfold main, mbind, when at 1. rewrite Hw. cbn [negb mret].
      destruct (validate_rejects p state0 Hv) as (msg & ->). eauto. }
  pose proof (lookup_at_returns_or_raises 0 (p_name p) (p_folder_id p)) as Hror.
  destruct (lookup_at W 0 (p_name p) (p_folder_id p)) as [inst|e| |] eqn:Hl;
    try contradiction.
  2:{ right. left. rewrite (main_lookup_raises fuel p e Hw Hv Hl). eauto. }
  destruct (lookup_shape W _ _ _ _ Hl) as [->|(kvs & -> & _)].
  2:{ right. left. exact (main_found fuel p kvs Hw Hv Hl). }
  destruct (check_mode W) eqn:Hc.
  { right. left. rewrite (main_check_mode fuel p Hw Hv Hc Hl). eauto. }
  right. right. split; [reflexivity|].
  destruct (proc W 1 (create_cmd p)) as [rc out err|d] eqn:Hp.
  - destruct (Z.eq_dec rc 0) as [->|Hrc].
    + destruct (json_loads W (str_or out "{}")) as [e|v] eqn:Hj.
      * assert (Hjd : (exists m, e = JSONDecodeError m) \/
                      (forall m, e <> JSONDecodeError m)).
        { destruct e; try (right; intros m; discriminate). left. eauto. }
        destruct Hjd as [(m & ->)|Hn].
        -- right. apply (main_creates W fuel p out err Hw Hc Hv Hl Hp).
           right. eauto.
        -- left. eexists.
           apply (main_decode_raises W fuel p out err e Hw Hc Hv Hl Hp).
           now apply decode_created_raises.
      * right. apply (main_creates W fuel p out err Hw Hc Hv Hl Hp).
        left. eauto.
    + left. eexists.
      apply (main_create_raises fuel p
               (RuntimeError (run_message W (create_cmd p) out err)
                  (CalledProcessError rc out err)) Hw Hv Hc Hl).
      rewrite (run_failed W (create_cmd p)
                 (log_call (list_cmd (p_folder_id p)) state0) rc out err Hp Hrc).
      reflexivity.
  - left. eexists. apply (main_create_raises fuel p (OtherError d) Hw Hv Hc Hl).
    unfold _run, try_M, subprocess_run. cbn [calls state0 log_call List.length app].
    rewrite Hp. reflexivity.
Qed.

(** What polling and reporting leave behind after a create. *)
Lemma poll_and_report_summary (fuel : nat) (p : params) :
  let R := try_M (poll_and_report W fuel p)
             (fun e =>
                match e with
                | RuntimeError msg _ => fail_json msg
                | RecursionError msg => fail_json msg
                | _ => fail_json ("Unexpected error: " ++ exn_repr W e)
                end) (after_create p) in
  exists k j,
    calls (snd R)
    = list_cmd (p_folder_id p) :: create_cmd p :: repeat (list_cmd (p_folder_id p)) k /\
    sleeps (snd R) = repeat 2%Z j /\
    j <= k /\
    ((exists o, fst R = Exit o) \/ fst R = OutOfFuel) /\
    (forall n, in_budget W (S n) = false ->
       k <= S n /\ j <= n /\ (n < fuel -> exists o, fst R = Exit o)).
Proof.
  intros R.
  assert (Hps : _poll_status W fuel (p_name p) (p_folder_id p) 90 (after_create p)
                = poll_loop W fuel (p_name p) (p_folder_id p) (clock W 0) 90
                    {| calls := [list_cmd (p_folder_id p); create_cmd p];
                       reads := 1; sleeps := [] |}) by reflexivity.
  destruct (poll_loop_trace (p_name p) (p_folder_id p) (clock W 0) fuel
              {| calls := [list_cmd (p_folder_id p); create_cmd p];
                 reads := 1; sleeps := [] |})
    as (k & j & Hc & Hs & Hend & Hbound).
  cbn [calls sleeps reads app] in Hc, Hs, Hbound.
  destruct (poll_loop W fuel (p_name p) (p_folder_id p) (clock W 0) 90 _)
    as [r st'] eqn:E.
  cbn [fst snd] in Hc, Hs, Hend, Hbound.
  assert (HR : (exists o, R = (Exit o, st') /\ returns_or_raises r) \/
               (R = (OutOfFuel, st') /\ r = OutOfFuel)).
  { subst R. destruct r as [inst|e|o|].
    - left.
      rewrite (report_after_poll W fuel p inst _ _ _ Hps
                 (poll_status_shape W _ _ _ _ _ _ Hps)).
      eexists. split; [reflexivity | exact I].
    - left. unfold try_M, poll_and_report, mbind at 1. rewrite Hps.
      destruct e; eexists; (split; [reflexivity | exact I]).
    - exfalso. destruct Hend as [(H & _)|(H & _)]; [discriminate H | exact H].
    - right. unfold try_M, poll_and_report, mbind at 1. rewrite Hps. auto. }
  exists k, j.
  assert (Hjk : j <= k) by (destruct Hend as [(_ & -> & ->)|(_ & -> & _)]; lia).
  destruct HR as [(o & -> & Hr)|(-> & ->)]; cbn [fst snd].
  - repeat split; eauto.
    + destruct (Hbound n H) as [Hj _].
      destruct Hend as [(Ho & _)|(_ & -> & _)];
        [rewrite Ho in Hr; contradiction | lia].
    + now destruct (Hbound n H).
  - repeat split; auto.
    + destruct (Hbound n H) as [Hj _].
      destruct Hend as [(_ & -> & ->)|(_ & -> & _)]; lia.
    + now destruct (Hbound n H).
    + intros Hn. destruct (Hbound n H) as [_ Hr]. destruct (Hr Hn).
Qed.

Lemma create_not_in_list_calls (p : params) :
  ~ In (create_cmd p) [list_cmd (p_folder_id p)].
Proof.
  intros [H|[]]. symmetry in H. exact (create_cmd_not_list _ _ H).
Qed.

(** X6. When the existence lookup raises, the pass fails with the message
    of the error if it is a [RuntimeError], and otherwise with
    "Unexpected error: " followed by the error's [repr]; the list command
    is the only process that ran, and nothing was polled. *)
Theorem lookup_failure_fails_without_create
    (fuel : nat) (p : params) (e : exn) :
  which_yc W = true ->
  valid p ->
  lookup_at W 0 (p_name p) (p_folder_id p) = Raise e ->
  exists st,
    main W fuel p state0
    = (Exit (FailJson
         match e with
         | RuntimeError msg _ => msg
         | RecursionError msg => msg
         | _ => "Unexpected error: " ++ exn_repr W e
         end), st) /\
    calls st = [list_cmd (p_folder_id p)] /\
    ~ In (create_cmd p) (calls st) /\
    reads st = 0 /\ sleeps st = [].
Proof.
  intros Hw Hv Hl. exists (log_call (list_cmd (p_folder_id p)) state0).
  split; [exact (main_lookup_raises fuel p e Hw Hv Hl)|].
  cbn. repeat split; auto. apply create_not_in_list_calls.
Qed.

(** X7. In check mode, when the lookup finds no instance, the pass reports
    [changed = True] and nothing else, and stops there: the create command
    is not run and nothing is polled. *)
Theorem check_mode_reports_change_without_creating (fuel : nat) (p : params) :
  which_yc W = true ->
  valid p ->
  check_mode W = true ->
  lookup_at W 0 (p_name p) (p_folder_id p) = Ret PyNone ->
  exists st,
    main W fuel p state0 = (Exit (ExitJson [("changed", PyBool true)]), st) /\
    calls st = [list_cmd (p_folder_id p)] /\
    ~ In (create_cmd p) (calls st) /\
    reads st = 0 /\ sleeps st = [].
Proof.
  intros Hw Hv Hc Hl. exists (log_call (list_cmd (p_folder_id p)) state0).
  split; [exact (main_check_mode fuel p Hw Hv Hc Hl)|].
  cbn. repeat split; auto. apply create_not_in_list_calls.
Qed.

(** X8. When the create command exits non-zero, the pass fails with the
    message [_run] builds from its output, without retrying and without
    polling: exactly the list and the create command have run, the clock
    was never read and the pass never slept. *)
Theorem create_failure_fails_without_polling
    (fuel : nat) (p : params) (rc : Z) (out err : string) :
  which_yc W = true ->
  valid p ->
  check_mode W = false ->
  lookup_at W 0 (p_name p) (p_folder_id p) = Ret PyNone ->
  proc W 1 (create_cmd p) = Completed rc out err ->
  rc <> 0%Z ->
  exists st,
    main W fuel p state0
    = (Exit (FailJson
         (str_or (str_strip W err)
            (str_or (str_strip W out)
               ("Command failed: "
                ++ String.concat " " (map (shlex_quote W) (create_cmd p)))))), st) /\
    calls st = [list_cmd (p_folder_id p); create_cmd p] /\
    reads st = 0 /\ sleeps st = [].
Proof.
  intros Hw Hv Hc Hl Hp Hrc. exists (after_create p).
  split; [|cbn; auto].
  apply (main_create_raises fuel p
           (RuntimeError (run_message W (create_cmd p) out err)
              (CalledProcessError rc out err)) Hw Hv Hc Hl).
  rewrite (run_failed W (create_cmd p)
             (log_call (list_cmd (p_folder_id p)) state0) rc out err Hp Hrc).
  reflexivity.
Qed.

(** X9. Every pass ends through [exit_json] or [fail_json]: no exception
    escapes [main] and [main] never returns normally; the only other way
    for the model to stop is the poll loop using up its fuel.  The pass
    does end as soon as some clock reading lies past the poll budget: if
    reading [n + 1] does, [n + 1] evaluations of the loop condition
    suffice. *)
Theorem pass_always_ends (fuel n : nat) (p : params) :
  ((exists o, fst (main W fuel p state0) = Exit o) \/
   fst (main W fuel p state0) = OutOfFuel) /\
  (in_budget W (S n) = false ->
   n < fuel ->
   exists o st, main W fuel p state0 = (Exit o, st)).
Proof.
  destruct (main_cases fuel p) as [(o & H)|[(o & H)|(_ & [(o & H)|H])]];
    try (rewrite H; split; [left; eexists; reflexivity | eauto]).
  destruct (poll_and_report_summary fuel p) as (k & j & _ & _ & _ & Hend & Hbound).
  rewrite <- H in Hend, Hbound. split; [exact Hend|].
  intros Hb Hn. destruct (Hbound n Hb) as (_ & _ & Hex). destruct (Hex Hn) as [o Ho].
  destruct (main W fuel p state0) as [r st]. cbn [fst] in Ho. subst r. eauto.
Qed.

(** X10. The processes of a pass, whatever the world does: none, or the
    list command alone, or the list command, the create command and then
    list commands only.  So the create command runs at most once, never
    before the lookup, and never in check mode. *)
Theorem pass_trace_discipline (fuel : nat) (p : params) :
  let tr := calls (snd (main W fuel p state0)) in
  pass_trace p tr /\
  count_occ argv_eq_dec tr (create_cmd p) <= 1 /\
  (check_mode W = true -> ~ In (create_cmd p) tr).
Proof.
  intros tr.
  assert (Hneq : create_cmd p <> list_cmd (p_folder_id p))
    by apply create_cmd_not_list.
  assert (Hcases :
    tr = [] \/ tr = [list_cmd (p_folder_id p)] \/
    (check_mode W = false /\
     exists k, tr = list_cmd (p_folder_id p) :: create_cmd p
                    :: repeat (list_cmd (p_folder_id p)) k)).
  { subst tr.
    destruct (main_cases fuel p) as [(o & ->)|[(o & ->)|(Hc & [(o & ->)| -> ])]].
    - now left.
    - right. now left.
    - right. right. split; [exact Hc|]. now exists 0.
    - right. right. split; [exact Hc|].
      destruct (poll_and_report_summary fuel p) as (k & j & Hk & _).
      now exists k. }
  destruct Hcases as [->|[->|(Hc & k & ->)]].
  - repeat split; [now left | cbn; lia | auto].
  - repeat split; [right; now left | |].
    + cbn [count_occ]. destruct (argv_eq_dec _ _); [congruence | lia].
    + intros _. apply create_not_in_list_calls.
  - repeat split; [right; right; now exists k | |].
    + rewrite count_occ_cons_neq by congruence.
      rewrite count_occ_cons_eq by reflexivity.
      rewrite count_occ_repeat_neq by exact Hneq. lia.
    + congruence.
Qed.

(** X12. Polling is bounded by the clock: if clock reading [n + 1] lies
    past the budget, the pass runs at most [n + 1] polling lookups on top
    of the existence lookup and the create command, and sleeps at most [n]
    times, two seconds each. *)
Theorem polling_is_bounded (fuel n : nat) (p : params) :
  in_budget W (S n) = false ->
  let st := snd (main W fuel p state0) in
  List.length (calls st) <= n + 3 /\
  List.length (sleeps st) <= n /\
  Forall (eq 2%Z) (sleeps st).
Proof.
  intros Hb st. subst st.
  destruct (main_cases fuel p) as [(o & ->)|[(o & ->)|(Hc & [(o & ->)| -> ])]];
    try (cbn; repeat split; (lia || constructor)).
  destruct (poll_and_report_summary fuel p) as (k & j & Hk & Hj & _ & _ & Hbound).
  destruct (Hbound n Hb) as (Hkn & Hjn & _).
  rewrite Hk, Hj. cbn [List.length]. rewrite !repeat_length.
  repeat split; try lia.
  apply Forall_forall. intros x Hx. symmetry. exact (repeat_spec _ _ _ Hx).
Qed.

Lemma poll_status_raises (fuel n : nat) (p : params) (e : exn) :
  rounds_without_status W p n ->
  lookup_at W (2 + n) (p_name p) (p_folder_id p) = Raise e ->
  n < fuel ->
  _poll_status W fuel (p_name p) (p_folder_id p) 90 (after_create p)
  = (Raise e, polled p n).
Proof.
  intros Hrounds Hr Hfuel.
  replace fuel with (n + S (fuel - S n)) by lia.
  unfold _poll_status, mbind, time_time, after_create.
  cbn [calls reads sleeps].
  rewrite poll_loop_spin.
  - rewrite poll_loop_step.
    cbn [spin calls reads sleeps app List.length]. rewrite repeat_length.
    change (S (S n)) with (2 + n) at 1 2. rewrite Hr.
    unfold polled. rewrite <- repeat_cons.
    destruct (PrimFloat.ltb _ _); reflexivity.
  - intros i Hi. cbn [calls reads List.length]. exact (Hrounds i Hi).
Qed.

(** X11. A lookup that raises while polling fails the pass although the
    instance has been created: once the create response has been decoded
    or dropped, after [n] rounds without a status, an error in the next
    lookup ends the pass with that error's message, the create command is
    among the processes that ran, and no [changed] is reported. *)
Theorem polling_failure_fails_after_create
    (fuel n : nat) (p : params) (out err : string) (e : exn) :
  which_yc W = true ->
  check_mode W = false ->
  valid p ->
  lookup_at W 0 (p_name p) (p_folder_id p) = Ret PyNone ->
  proc W 1 (create_cmd p) = Completed 0 out err ->
  loads_quietly W (str_or out "{}") ->
  rounds_without_status W p n ->
  lookup_at W (2 + n) (p_name p) (p_folder_id p) = Raise e ->
  n < fuel ->
  main W fuel p state0
  = (Exit (FailJson
       match e with
       | RuntimeError msg _ => msg
       | RecursionError msg => msg
       | _ => "Unexpected error: " ++ exn_repr W e
       end), polled p n) /\
  In (create_cmd p) (calls (polled p n)).
Proof.
  intros Hw Hc Hv Hl Hp Hq Hrounds Hr Hfuel. split.
  - rewrite (main_creates W fuel p out err Hw Hc Hv Hl Hp Hq).
    unfold try_M, poll_and_report, mbind at 1.
    rewrite (poll_status_raises fuel n p e Hrounds Hr Hfuel).
    destruct e; reflexivity.
  - cbn. auto.
Qed.

(** X19. A create response on which [json.loads] raises anything but a
    [JSONDecodeError], a [RecursionError] on nesting that is too deep or a
    [ValueError] on an integer that is too long, is not dropped: the pass
    fails right after the create, with the error's message if it is a
    [RuntimeError] such as [RecursionError] and with "Unexpected error: "
    and its [repr] otherwise, and nothing is polled. *)
Theorem create_response_decode_error_fails_the_pass
    (fuel : nat) (p : params) (out err : string) (e : exn) :
  which_yc W = true ->
  check_mode W = false ->
  valid p ->
  lookup_at W 0 (p_name p) (p_folder_id p) = Ret PyNone ->
  proc W 1 (create_cmd p) = Completed 0 out err ->
  out <> "" ->
  json_loads W out = inl e ->
  (forall m, e <> JSONDecodeError m) ->
  exists st,
    main W fuel p state0
    = (Exit (FailJson
         match e with
         | RuntimeError msg _ => msg
         | RecursionError msg => msg
         | _ => "Unexpected error: " ++ exn_repr W e
         end), st) /\
    calls st = [list_cmd (p_folder_id p); create_cmd p] /\
    reads st = 0 /\ sleeps st = [].
Proof.
  intros Hw Hc Hv Hl Hp Hne Hj He. exists (after_create p).
  split; [|cbn; auto].
  apply (main_decode_raises W fuel p out err e Hw Hc Hv Hl Hp).
  apply decode_created_raises; [|exact He].
  unfold str_or. apply String.eqb_neq in Hne. now rewrite Hne.
Qed.

End Course.

(** ** More on the create command and the public address *)

(** X13. Every parameter reaches the tool as the value of its own option:
    name, folder, zone, the boot disk specification, cores, memory, core
    fraction and platform, with the output format fixed to json and the
    network interface as built; [--ssh-key] is passed exactly when a
    non-empty key is given. *)
Theorem create_cmd_passes_each_parameter (p : params) :
  option_value "--name" (create_cmd p) = Some (p_name p) /\
  option_value "--folder-id" (create_cmd p) = Some (p_folder_id p) /\
  option_value "--zone" (create_cmd p) = Some (p_zone p) /\
  option_value "--create-boot-disk" (create_cmd p)
  = Some ("size=" ++ str_int (p_disk_gb p) ++ "GB,type="
          ++ disk_kind_str (p_disk_type p) ++ ",image-id=" ++ p_image_id p) /\
  option_value "--cores" (create_cmd p) = Some (str_int (p_cores p)) /\
  option_value "--memory" (create_cmd p) = Some (str_int (p_memory_gb p)) /\
  option_value "--core-fraction" (create_cmd p)
  = Some (str_int (p_core_fraction p)) /\
  option_value "--platform-id" (create_cmd p)
  = Some (platform_str (p_platform_id p)) /\
  option_value "--format" (create_cmd p) = Some "json" /\
  option_value "--network-interface" (create_cmd p) = Some (nic p) /\
  option_value "--ssh-key" (create_cmd p)
  = match p_ssh_key p with
    | Some k => if k =? "" then None else Some k
    | None => None
    end.
Proof.
  unfold create_cmd.
  destruct (p_ssh_key p) as [k|]; [destruct (k =? "")|];
    destruct (p_preemptible p); repeat split; reflexivity.
Qed.

(** X14. Only the first network interface is consulted: two records whose
    interface lists start with the same interface yield the same public
    address, so a NAT address carried by a later interface is never
    reported. *)
Theorem extract_public_ip_first_interface_only
    (kvs kvs' : list (string * pyval)) (nic0 : pyval) (rest rest' : list pyval) :
  dict_get kvs "network_interfaces" = PyList (nic0 :: rest) ->
  dict_get kvs' "network_interfaces" = PyList (nic0 :: rest') ->
  _extract_public_ip (PyDict kvs) = _extract_public_ip (PyDict kvs').
Proof.
  intros H H'. unfold _extract_public_ip, extract_body.
  cbn [py_get rbind]. rewrite H, H'. reflexivity.
Qed.

(** ** The further properties on concrete passes *)

(** X1 on a create command that fails with text on stdout only. *)
Lemma run_failure_message_witness :
  _run Cases.create_fails (create_cmd Demo.p) (log_call (list_cmd "b1g") state0)
  = (Raise (RuntimeError "quota exceeded" (CalledProcessError 1 "quota exceeded" "")),
     after_create Demo.p).
Proof.
  destruct (run_failure_message Cases.create_fails (create_cmd Demo.p)
              (log_call (list_cmd "b1g") state0) 1 "quota exceeded" "")
    as (msg & Hrun & _ & Hout & _).
  - reflexivity.
  - discriminate.
  - rewrite Hrun. rewrite (Hout eq_refl); [reflexivity | discriminate].
Defined.

(** X2 on a list command that prints nothing. *)
Lemma empty_list_output_finds_nothing_witness :
  _get_instance_by_name Demo.created_world "demo" "b1g" state0
  = (Ret PyNone, log_call (list_cmd "b1g") state0).
Proof.
  apply (empty_list_output_finds_nothing Demo.created_world "demo" "b1g" state0 "");
    reflexivity.
Defined.

(** X3 on a listing with another instance first, then two of the requested
    name, then a number. *)
Lemma lookup_first_match_wins_witness :
  _get_instance_by_name Cases.crowded "demo" "b1g" state0
  = (Ret (PyDict (Cases.fields Demo.running)), log_call (list_cmd "b1g") state0).
Proof.
  apply (lookup_first_match_wins Cases.crowded "demo" "b1g" state0 "LIST" ""
           [Cases.other] [Cases.twin; PyInt 7] (Cases.fields Demo.running)).
  - reflexivity.
  - reflexivity.
  - constructor; [|constructor].
    exists (Cases.fields Cases.other). split; [reflexivity | discriminate].
  - reflexivity.
Defined.

(** X4 on a listing that holds one instance of another name. *)
Lemma lookup_none_iff_no_match_witness :
  _get_instance_by_name Demo.pending_world "web" "b1g" (after_create Demo.p)
  = (Ret PyNone, log_call (list_cmd "b1g") (after_create Demo.p)).
Proof.
  apply (proj2 (lookup_none_iff_no_match Demo.pending_world "web" "b1g"
                  (after_create Demo.p) "LIST-PENDING" "" [Demo.pending]
                  eq_refl eq_refl
                  (Forall_cons _ (ex_intro _ (Cases.fields Demo.pending) eq_refl)
                     (Forall_nil _)))).
  constructor; [|constructor].
  exists (Cases.fields Demo.pending). split; [reflexivity | discriminate].
Defined.

(** X5 on a list command that prints an object. *)
Lemma lookup_on_unexpected_shapes_witness :
  fst (_get_instance_by_name Cases.object_listed "demo" "b1g" state0)
  = Raise AttributeError.
Proof.
  refine (proj1 (lookup_on_unexpected_shapes Cases.object_listed "demo" "b1g"
                   state0 "OBJECT" ""
                   (PyDict [("error", PyStr "unauthorized")]) eq_refl eq_refl)
            _ _ eq_refl).
Defined.

(** X6 on a pass whose list command fails. *)
Lemma lookup_failure_fails_without_create_witness :
  exists st,
    main Cases.list_fails 1 Demo.p state0
    = (Exit (FailJson "ERROR: folder not found"), st) /\
    calls st = [list_cmd "b1g"] /\
    ~ In (create_cmd Demo.p) (calls st) /\
    reads st = 0 /\ sleeps st = [].
Proof.
  apply (lookup_failure_fails_without_create Cases.list_fails 1 Demo.p
           (RuntimeError "ERROR: folder not found"
              (CalledProcessError 1 "" "ERROR: folder not found"))).
  - reflexivity.
  - exact demo_valid.
  - reflexivity.
Defined.

(** X7 on a dry run that finds nothing. *)
Lemma check_mode_reports_change_without_creating_witness :
  exists st,
    main Cases.dry_run 1 Demo.p state0
    = (Exit (ExitJson [("changed", PyBool true)]), st) /\
    calls st = [list_cmd "b1g"] /\
    ~ In (create_cmd Demo.p) (calls st) /\
    reads st = 0 /\ sleeps st = [].
Proof.
  apply (check_mode_reports_change_without_creating Cases.dry_run 1 Demo.p).
  - reflexivity.
  - exact demo_valid.
  - reflexivity.
  - reflexivity.
Defined.

(** X8 on a pass whose create command fails. *)
Lemma create_failure_fails_without_polling_witness :
  exists st,
    main Cases.create_fails 1 Demo.p state0
    = (Exit (FailJson "quota exceeded"), st) /\
    calls st = [list_cmd "b1g"; create_cmd Demo.p] /\
    reads st = 0 /\ sleeps st = [].
Proof.
  apply (create_failure_fails_without_polling Cases.create_fails 1 Demo.p
           1 "quota exceeded" "").
  - reflexivity.
  - exact demo_valid.
  - reflexivity.
  - reflexivity.
  - reflexivity.
  - discriminate.
Defined.

(** X9 on a pass that polls until the budget has elapsed. *)
Lemma pass_always_ends_witness :
  exists o st, main Demo.absent_world 3 Demo.p state0 = (Exit o, st).
Proof.
  apply (proj2 (pass_always_ends Demo.absent_world 3 2 Demo.p)).
  - reflexivity.
  - lia.
Defined.

(** X10 on a dry run. *)
Lemma pass_trace_discipline_witness :
  ~ In (create_cmd Demo.p) (calls (snd (main Cases.dry_run 1 Demo.p state0))).
Proof.
  apply (proj2 (proj2 (pass_trace_discipline Cases.dry_run 1 Demo.p))).
  reflexivity.
Defined.

(** X11 on a pass whose second poll fails. *)
Lemma polling_failure_fails_after_create_witness :
  main Cases.poll_fails 2 Demo.p state0
  = (Exit (FailJson "ERROR: token expired"), polled Demo.p 1) /\
  In (create_cmd Demo.p) (calls (polled Demo.p 1)).
Proof.
  apply (polling_failure_fails_after_create Cases.poll_fails 2 1 Demo.p
           "CREATED" ""
           (RuntimeError "ERROR: token expired"
              (CalledProcessError 1 "" "ERROR: token expired"))).
  - reflexivity.
  - reflexivity.
  - exact demo_valid.
  - reflexivity.
  - reflexivity.
  - left. eexists. reflexivity.
  - apply demo_rounds. intros [|i] Hi; [|lia]. left. split; reflexivity.
  - reflexivity.
  - lia.
Defined.

(** X12 on a pass that polls until the budget has elapsed. *)
Lemma polling_is_bounded_witness :
  List.length (calls (snd (main Demo.absent_world 3 Demo.p state0))) <= 2 + 3 /\
  List.length (sleeps (snd (main Demo.absent_world 3 Demo.p state0))) <= 2 /\
  Forall (eq 2%Z) (sleeps (snd (main Demo.absent_world 3 Demo.p state0))).
Proof.
  apply (polling_is_bounded Demo.absent_world 3 2 Demo.p). reflexivity.
Defined.

(** X14 on an instance whose only NAT mapping sits on its second interface. *)
Lemma extract_public_ip_first_interface_only_witness :
  _extract_public_ip (PyDict Cases.nat_on_second) = Ret PyNone.
Proof.
  rewrite (extract_public_ip_first_interface_only Cases.nat_on_second
             [("network_interfaces", PyList [Cases.plain_nic])]
             Cases.plain_nic [Cases.nat_nic] []); reflexivity.
Defined.

(** * Properties of dev_write_module *)

Section DevWriteProperties.

Import DevWrite.

Variable W : DevWrite.World.
Variables path new_content : string.

Lemma differs_false (cur : option string) :
  differs cur new_content = false <-> cur = Some new_content.
Proof.
  destruct cur as [s|]; cbn.
  - rewrite negb_false_iff, String.eqb_eq. split; [now intros -> | now intros [= ->]].
  - split; discriminate.
Qed.

Lemma write_file_log :
  let parent := DevWrite.dirname W path in
  exists m w : bool,
    snd (write_file W path new_content)
    = ((if m then [Makedirs parent] else [])
       ++ (if w then [Write path new_content] else []))%list /\
    (m = true -> parent <> "" /\ DevWrite.isdir W parent = false) /\
    (fst (write_file W path new_content) = None -> w = true).
Proof.
  intros parent. unfold write_file. fold parent.
  destruct (negb (parent =? "") && negb (DevWrite.isdir W parent)) eqn:E.
  - apply andb_true_iff in E. destruct E as [E1 E2].
    apply negb_true_iff in E1, E2. apply String.eqb_neq in E1.
    destruct (DevWrite.makedirs W parent).
    + exists true, false. cbn. repeat split; auto. discriminate.
    + exists true, true. cbn. repeat split; auto.
  - exists false, true. cbn. repeat split; auto; discriminate.
Qed.

(** What [finish] does, by cases. *)
Lemma finish_cases (cur : option string) (log : list effect) :
  let b := differs cur new_content in
  (DevWrite.check_mode W = true /\
   finish W path new_content cur log
   = (ExitJson (result b path new_content), log)) \/
  (DevWrite.check_mode W = false /\ b = false /\
   finish W path new_content cur log
   = (ExitJson (result false path new_content), log)) \/
  (DevWrite.check_mode W = false /\ b = true /\
   exists eff,
     snd (write_file W path new_content) = eff /\
     ((fst (write_file W path new_content) = None /\
       finish W path new_content cur log
       = (ExitJson (result true path new_content), (log ++ eff)%list)) \/
      (exists e,
         fst (write_file W path new_content) = Some e /\
         finish W path new_content cur log
         = (FailJson ("Failed to write '" ++ path ++ "': " ++ e)
              (result true path new_content), (log ++ eff)%list)))).
Proof.
  intros b. subst b. unfold finish.
  destruct (DevWrite.check_mode W); [left; auto|].
  right. destruct (differs cur new_content); [right|left; auto].
  repeat split.
  destruct (write_file W path new_content) as [[e|] eff]; cbn [fst snd];
    exists eff; (split; [reflexivity|]); [right; eauto | left; auto].
Qed.

(** X15. A file that exists and reads back as the requested content is
    left alone, in check mode or not: the run reports [changed = False]
    and only reads.  Conversely a run that ends well reports
    [changed = False] only in that case, always reports the path and the
    length of the content in code points, and when it reports
    [changed = True] outside
    check mode its last step was to write that content to that path. *)
Theorem write_reports_change_exactly :
  (DevWrite.path_exists W path = true ->
   DevWrite.read_text W path = inr new_content ->
   run_module W path new_content
   = (ExitJson [("changed", PyBool false);
                ("path", PyStr path);
                ("size", PyInt (Z.of_nat (DevWrite.len new_content)))],
      [Read path])) /\
  (forall kw log,
      run_module W path new_content = (ExitJson kw, log) ->
      exists b,
        kw = [("changed", PyBool b);
              ("path", PyStr path);
              ("size", PyInt (Z.of_nat (DevWrite.len new_content)))] /\
        (b = false <->
         DevWrite.path_exists W path = true /\
         DevWrite.read_text W path = inr new_content) /\
        (b = false -> existsb mutates log = false) /\
        (b = true -> DevWrite.check_mode W = false ->
         exists pre, log = (pre ++ [Write path new_content])%list)).
Proof.
  split.
  - intros He Hr. unfold run_module, finish. rewrite He, Hr.
    cbn [differs]. rewrite String.eqb_refl. cbn [negb].
    destruct (DevWrite.check_mode W); reflexivity.
  - intros kw log Hrun. unfold run_module in Hrun.
    assert (Hfin : forall cur log0,
               existsb mutates log0 = false ->
               finish W path new_content cur log0 = (ExitJson kw, log) ->
               exists b,
                 kw = result b path new_content /\
                 (b = false <-> cur = Some new_content) /\
                 (b = false -> existsb mutates log = false) /\
                 (b = true -> DevWrite.check_mode W = false ->
                  exists pre, log = (pre ++ [Write path new_content])%list)).
    { intros cur log0 Hlog0 Hf.
      destruct (finish_cases cur log0)
        as [(Hc & H)|[(Hc & Hb & H)|(Hc & Hb & eff & Heff & [(Hw & H)|(e & _ & H)])]];
        rewrite H in Hf; try discriminate Hf; injection Hf as <- <-.
      - exists (differs cur new_content). split; [reflexivity|].
        split; [apply differs_false|]. split; [auto|]. congruence.
      - exists false. split; [reflexivity|].
        split; [rewrite <- differs_false; tauto|]. split; [auto|]. discriminate.
      - exists true. split; [reflexivity|].
        split; [rewrite <- differs_false; rewrite Hb; split; discriminate|].
        split; [discriminate|]. intros _ _.
        destruct write_file_log as (m & w & Hlog & _ & Hw').
        rewrite Heff in Hlog. rewrite Hlog, (Hw' Hw).
        exists (log0 ++ (if m then [Makedirs (DevWrite.dirname W path)] else []))%list.
        now rewrite <- app_assoc. }
    destruct (DevWrite.path_exists W path) eqn:He.
    + destruct (DevWrite.read_text W path) as [e|s] eqn:Hr; [discriminate Hrun|].
      destruct (Hfin (Some s) [Read path] eq_refl Hrun) as (b & Hkw & Hb & Hm & Hw).
      exists b. split; [exact Hkw|]. split; [|auto].
      rewrite Hb. split; [intros [= ->]; auto | intros [_ [= ->]]; reflexivity].
    + destruct (Hfin None [] eq_refl Hrun) as (b & Hkw & Hb & Hm & Hw).
      exists b. split; [exact Hkw|]. split; [|auto].
      rewrite Hb. split; [discriminate | intros [H _]; discriminate H].
Qed.

(** X16. Check mode changes nothing and tells what a real run would
    report: in check mode the run creates no directory and writes no file,
    and whenever the run without check mode in the same file system ends
    well, the check-mode run ends with the same report. *)
Theorem check_mode_changes_nothing :
  DevWrite.check_mode W = true ->
  existsb mutates (snd (run_module W path new_content)) = false /\
  (forall kw log,
      run_module (with_check_mode false W) path new_content = (ExitJson kw, log) ->
      fst (run_module W path new_content) = ExitJson kw).
Proof.
  intros Hc.
  assert (Hfin : forall cur log0,
             finish W path new_content cur log0
             = (ExitJson (result (differs cur new_content) path new_content), log0)).
  { intros cur log0. unfold finish. now rewrite Hc. }
  assert (Hreal : forall cur log0 kw log,
             finish (with_check_mode false W) path new_content cur log0
             = (ExitJson kw, log) ->
             kw = result (differs cur new_content) path new_content).
  { intros cur log0 kw log. unfold finish. cbn [DevWrite.check_mode with_check_mode].
    destruct (differs cur new_content).
    - destruct (write_file _ path new_content) as [[e|] eff]; [discriminate|].
      now intros [= <- _].
    - now intros [= <- _]. }
  unfold run_module. cbn [DevWrite.path_exists DevWrite.read_text with_check_mode].
  destruct (DevWrite.path_exists W path).
  - destruct (DevWrite.read_text W path) as [e|s].
    + split; [reflexivity | discriminate].
    + rewrite Hfin. split; [reflexivity|].
      intros kw log H. now rewrite (Hreal _ _ _ _ H).
  - rewrite Hfin. split; [reflexivity|].
    intros kw log H. now rewrite (Hreal _ _ _ _ H).
Qed.

(** X17. How failures are reported.  A failed read ends the run with
    "Failed to read", no result fields, and nothing created or written,
    whatever the mode.  Every other failure is a failed write outside check
    mode: its message starts with "Failed to write" and it carries
    [changed = True] with the path and the size. *)
Theorem failures_are_reported :
  (forall e,
      DevWrite.path_exists W path = true ->
      DevWrite.read_text W path = inl e ->
      run_module W path new_content
      = (FailJson ("Failed to read '" ++ path ++ "': " ++ e) [], [Read path])) /\
  (forall msg kw log,
      run_module W path new_content = (FailJson msg kw, log) ->
      (kw = [] /\ log = [Read path] /\
       exists e, DevWrite.read_text W path = inl e /\
                 msg = "Failed to read '" ++ path ++ "': " ++ e) \/
      (kw = [("changed", PyBool true);
             ("path", PyStr path);
             ("size", PyInt (Z.of_nat (DevWrite.len new_content)))] /\
       DevWrite.check_mode W = false /\
       exists e, msg = "Failed to write '" ++ path ++ "': " ++ e)).
Proof.
  split.
  - intros e He Hr. unfold run_module. now rewrite He, Hr.
  - intros msg kw log Hrun. unfold run_module in Hrun.
    assert (Hfin : forall cur log0,
               finish W path new_content cur log0 = (FailJson msg kw, log) ->
               kw = result true path new_content /\
               DevWrite.check_mode W = false /\
               exists e, msg = "Failed to write '" ++ path ++ "': " ++ e).
    { intros cur log0 Hf.
      destruct (finish_cases cur log0)
        as [(Hc & H)|[(Hc & Hb & H)|(Hc & Hb & eff & Heff & [(Hw & H)|(e & _ & H)])]];
        rewrite H in Hf; try discriminate Hf.
      injection Hf as <- <- <-.
      split; [reflexivity|]. split; [exact Hc|]. eexists. reflexivity. }
    destruct (DevWrite.path_exists W path).
    + destruct (DevWrite.read_text W path) as [e|s] eqn:Hr.
      * injection Hrun as <- <- <-. left.
        split; [reflexivity|]. split; [reflexivity|]. eexists. split; reflexivity.
      * right. exact (Hfin _ _ Hrun).
    + right. exact (Hfin _ _ Hrun).
Qed.

(** X18. What a run asks of the file system, in every world: it reads the
    file exactly when the file exists, then creates at most the parent
    directory, and only if the path names one that is not a directory,
    then writes at most once, the requested content to the requested
    path.  No other path is read, created or written. *)
Theorem run_touches_only_its_target :
  exists m w : bool,
    snd (run_module W path new_content)
    = ((if DevWrite.path_exists W path then [Read path] else [])
       ++ (if m then [Makedirs (DevWrite.dirname W path)] else [])
       ++ (if w then [Write path new_content] else []))%list /\
    (m = true ->
     DevWrite.dirname W path <> "" /\
     DevWrite.isdir W (DevWrite.dirname W path) = false /\
     DevWrite.check_mode W = false) /\
    (w = true -> DevWrite.check_mode W = false).
Proof.
  assert (Hfin : forall cur log0,
             exists m w : bool,
               snd (finish W path new_content cur log0)
               = (log0 ++ (if m then [Makedirs (DevWrite.dirname W path)] else [])
                  ++ (if w then [Write path new_content] else []))%list /\
               (m = true ->
                DevWrite.dirname W path <> "" /\
                DevWrite.isdir W (DevWrite.dirname W path) = false /\
                DevWrite.check_mode W = false) /\
               (w = true -> DevWrite.check_mode W = false)).
  { intros cur log0.
    assert (Hnone : forall o,
               finish W path new_content cur log0 = (o, log0) ->
               exists m w : bool,
                 snd (finish W path new_content cur log0)
                 = (log0 ++ (if m then [Makedirs (DevWrite.dirname W path)] else [])
                    ++ (if w then [Write path new_content] else []))%list /\
                 (m = true ->
                  DevWrite.dirname W path <> "" /\
                  DevWrite.isdir W (DevWrite.dirname W path) = false /\
                  DevWrite.check_mode W = false) /\
                 (w = true -> DevWrite.check_mode W = false)).
    { intros o H. exists false, false. rewrite H. cbn [snd app].
      rewrite app_nil_r. repeat split; discriminate. }
    destruct (finish_cases cur log0)
      as [(Hc & H)|[(Hc & Hb & H)|(Hc & Hb & eff & Heff & Hout)]];
      try exact (Hnone _ H).
    destruct write_file_log as (m & w & Hlog & Hm & _).
    rewrite Heff in Hlog. exists m, w.
    split.
    - destruct Hout as [(_ & H)|(e & _ & H)]; rewrite H; cbn [snd]; now rewrite Hlog.
    - split; [intros Hmt; destruct (Hm Hmt); auto | auto]. }
  unfold run_module.
  destruct (DevWrite.path_exists W path).
  - destruct (DevWrite.read_text W path) as [e|s].
    + exists false, false. cbn. repeat split; discriminate.
    + exact (Hfin (Some s) [Read path]).
  - exact (Hfin None []).
Qed.

End DevWriteProperties.

(** X15 on a file that already holds the requested content, three
    characters of which the last takes three bytes. *)
Lemma write_reports_change_exactly_witness :
  DevWrite.run_module (DevWrite.sample false "1 €") "/etc/motd" "1 €"
  = (DevWrite.ExitJson [("changed", PyBool false);
                        ("path", PyStr "/etc/motd");
                        ("size", PyInt 3)],
     [DevWrite.Read "/etc/motd"]).
Proof.
  apply (proj1 (write_reports_change_exactly (DevWrite.sample false "1 €")
                  "/etc/motd" "1 €")); reflexivity.
Defined.

(** X16 on a dry run against a file that holds other content. *)
Lemma check_mode_changes_nothing_witness :
  existsb DevWrite.mutates
    (snd (DevWrite.run_module (DevWrite.sample true "old") "/etc/motd" "new"))
  = false /\
  fst (DevWrite.run_module (DevWrite.sample true "old") "/etc/motd" "new")
  = DevWrite.ExitJson [("changed", PyBool true);
                       ("path", PyStr "/etc/motd");
                       ("size", PyInt 3)].
Proof.
  destruct (check_mode_changes_nothing (DevWrite.sample true "old")
              "/etc/motd" "new" eq_refl) as [Hlog Hsame].
  split; [exact Hlog|].
  apply (Hsame _ [DevWrite.Read "/etc/motd"; DevWrite.Write "/etc/motd" "new"]).
  reflexivity.
Defined.

(** X17 on a file that cannot be read, and on a file whose directory
    cannot be created. *)
Lemma failures_are_reported_witness :
  DevWrite.run_module DevWrite.locked "/etc/shadow" "x"
  = (DevWrite.FailJson
       "Failed to read '/etc/shadow': [Errno 13] Permission denied: '/etc/shadow'"
       [],
     [DevWrite.Read "/etc/shadow"]) /\
  ([("changed", PyBool true); ("path", PyStr "/proc/x/y"); ("size", PyInt 1)]
   = [("changed", PyBool true);
      ("path", PyStr "/proc/x/y");
      ("size", PyInt (Z.of_nat (DevWrite.len "€")))] /\
   DevWrite.check_mode (DevWrite.sample false "") = false /\
   exists e,
     "Failed to write '/proc/x/y': [Errno 13] Permission denied: '/proc/x'"
     = "Failed to write '" ++ "/proc/x/y" ++ "': " ++ e).
Proof.
  split.
  - apply (proj1 (failures_are_reported DevWrite.locked "/etc/shadow" "x"));
      reflexivity.
  - destruct (proj2 (failures_are_reported (DevWrite.sample false "")
                       "/proc/x/y" "€")
                "Failed to write '/proc/x/y': [Errno 13] Permission denied: '/proc/x'"
                [("changed", PyBool true); ("path", PyStr "/proc/x/y");
                 ("size", PyInt 1)]
                [DevWrite.Makedirs "/proc/x"] eq_refl)
      as [(Hkw & _)|H].
    + discriminate Hkw.
    + exact H.
Defined.

(** X18 on a new file in a directory that does not exist yet. *)
Lemma run_touches_only_its_target_witness :
  exists m w : bool,
    snd (DevWrite.run_module (DevWrite.sample false "old") "/srv/app/motd" "new")
    = ([] ++ (if m then [DevWrite.Makedirs "/srv/app"] else [])
       ++ (if w then [DevWrite.Write "/srv/app/motd" "new"] else []))%list /\
    (m = true ->
     "/srv/app" <> "" /\
     DevWrite.isdir (DevWrite.sample false "old") "/srv/app" = false /\
     DevWrite.check_mode (DevWrite.sample false "old") = false) /\
    (w = true -> DevWrite.check_mode (DevWrite.sample false "old") = false).
Proof.
  exact (run_touches_only_its_target (DevWrite.sample false "old")
           "/srv/app/motd" "new").
Defined.

(** X19 on a create command that answers with brackets nested too deeply. *)
Lemma create_response_decode_error_fails_the_pass_witness :
  exists st,
    main Cases.deep_response 3 Demo.p state0
    = (Exit (FailJson Cases.too_deep), st) /\
    calls st = [list_cmd "b1g"; create_cmd Demo.p] /\
    reads st = 0 /\ sleeps st = [].
Proof.
  apply (create_response_decode_error_fails_the_pass Cases.deep_response 3 Demo.p
           "[[[[" "" (RecursionError Cases.too_deep)).
  - reflexivity.
  - reflexivity.
  - exact demo_valid.
  - reflexivity.
  - reflexivity.
  - discriminate.
  - reflexivity.
  - discriminate.
Defined.
